(** * MIRACATECH universal file analyzer: a shallow embedding

    The development follows [core/universal_file_analyzer.py].  The class
    [MIRACATECHFileAnalyzer] is embedded method by method under the names
    the source uses.  Python values that end up in the report are values of
    [pyval]; the calls the analyzer makes on the operating system are
    commands of a small monad that threads the list of I/O events and
    carries Python exceptions.

    The standard-library functions the analyzer relies on are modelled as
    follows.
    - [hashlib.md5], [hashlib.sha256]: implemented here (RFC 1321,
      FIPS 180-4) and run on the usual test vectors.
    - [csv.reader] with the default dialect: the state machine of the
      reader, implemented here.
    - [str.split], [str.strip], [str.startswith], slices, [int(s, 16)],
      [format(x, ".1f")]: implemented here.
    - [float]: the rational a value denotes; an integer is converted by
      rounding to 53 significant bits, and the divisions the analyzer makes
      (by 1024) are exact.
    - [repr] of a string, for the text of a [FileNotFoundError]:
      implemented here.
    - text decoding of [open(path, "r")], [json.loads],
      [mimetypes.guess_type], [pathlib] names, [str.lower], [datetime]
      and the iteration order of a [set]: fields of a [runtime] record the
      analyzer is parametrised by; module [Posix] gives one such runtime
      and a few files, on which the examples run.
    - the files, the clock and the text of the error [os.stat] and [open]
      raise for a path without a file: fields of a [world] record. *)

From Stdlib Require Import ZArith NArith QArith Qabs Qround List Bool Lia Lqa.
From Stdlib Require Import Strings.String Strings.Ascii Strings.Byte.
From Stdlib Require Import Numbers.DecimalString.
Import ListNotations.

Set Warnings "-register-all".

Local Open Scope string_scope.
Local Open Scope Z_scope.

(** ** Python strings and byte strings *)

(** A Python [str] is a Rocq [string]; a character stands for the code
    point of the same number, so the model covers text in U+0000..U+00FF.
    A Python [bytes] is a [list byte]. *)

Module Str.

Definition chars (s : string) : list ascii := list_ascii_of_string s.
Definition of_chars (l : list ascii) : string := string_of_list_ascii l.

Definition code (c : ascii) : N := N_of_ascii c.

(** [str.isspace] on one character of the range: the ASCII controls
    TAB..CR and FS..US, the space, NEL (U+0085) and NBSP (U+00A0). *)
Definition isspace (c : ascii) : bool :=
  let n := code c in
  ((9 <=? n) && (n <=? 13) || (28 <=? n) && (n <=? 32)
   || (n =? 133) || (n =? 160))%N.

Fixpoint lstrip (s : string) : string :=
  match s with
  | String c s' => if isspace c then lstrip s' else s
  | EmptyString => EmptyString
  end.

Definition rev (s : string) : string := of_chars (List.rev (chars s)).

Definition rstrip (s : string) : string := rev (lstrip (rev s)).

(** [s.strip()] *)
Definition strip (s : string) : string := rstrip (lstrip s).

(** [s.startswith(p)] *)
Definition startswith (p s : string) : bool := String.prefix p s.

(** Truth value of a string: [bool(s)]. *)
Definition truthy (s : string) : bool :=
  match s with EmptyString => false | _ => true end.

(** [s.split(sep)] for a one-character separator: never empty, one more
    item than there are separators. *)
Fixpoint split (sep : ascii) (s : string) : list string :=
  match s with
  | EmptyString => [EmptyString]
  | String c s' =>
      if Ascii.eqb c sep then EmptyString :: split sep s'
      else match split sep s' with
           | w :: ws => String c w :: ws
           | [] => [String c EmptyString]
           end
  end.

(** [sep.join(items)] *)
Fixpoint join (sep : string) (items : list string) : string :=
  match items with
  | [] => EmptyString
  | [x] => x
  | x :: rest => x ++ sep ++ join sep rest
  end.

(** [s[:n]] for [n >= 0]. *)
Definition take (n : nat) (s : string) : string :=
  of_chars (firstn n (chars s)).

(** [s[-n:]] for [n > 0]: the last [n] characters, the whole string when
    it is shorter. *)
Definition take_last (n : nat) (s : string) : string :=
  of_chars (skipn (List.length (chars s) - n) (chars s)).

Definition newline : ascii := "010"%char.

End Str.

(** [content[a:b]] on bytes for [0 <= a <= b]: the slice is truncated at
    the end of the content. *)
Definition slice {A : Type} (a b : nat) (l : list A) : list A :=
  firstn (b - a) (skipn a l).

(** ** Hexadecimal digits *)

Module Hex.

Definition digit (n : N) : ascii :=
  match n with
  | 0 => "0" | 1 => "1" | 2 => "2" | 3 => "3" | 4 => "4" | 5 => "5"
  | 6 => "6" | 7 => "7" | 8 => "8" | 9 => "9" | 10 => "a" | 11 => "b"
  | 12 => "c" | 13 => "d" | 14 => "e" | _ => "f"
  end%N%char.

(** Value of a hexadecimal digit, either case. *)
Definition value (c : ascii) : option Z :=
  let n := Z.of_N (N_of_ascii c) in
  if (48 <=? n) && (n <=? 57) then Some (n - 48)
  else if (97 <=? n) && (n <=? 102) then Some (n - 87)
  else if (65 <=? n) && (n <=? 70) then Some (n - 55)
  else None.

(** The digits [hexdigest] produces: [0-9a-f]. *)
Definition is_lower_hex (c : ascii) : bool :=
  let n := Z.of_N (N_of_ascii c) in
  (48 <=? n) && (n <=? 57) || (97 <=? n) && (n <=? 102).

(** Two digits for a byte value below 256. *)
Definition of_byte (b : Z) : list ascii :=
  [digit (Z.to_N (b / 16 mod 16)); digit (Z.to_N (b mod 16))].

Definition of_bytes (bs : list Z) : string :=
  Str.of_chars (flat_map of_byte bs).

End Hex.

(** ** hashlib *)

Module hashlib.

Definition byte_val (b : byte) : Z := Z.of_N (Byte.to_N b).

Definition w32 (x : Z) : Z := x mod 2 ^ 32.
Definition add32 (x y : Z) : Z := w32 (x + y).
Definition not32 (x : Z) : Z := Z.lxor x 0xffffffff.
Definition rotl32 (x n : Z) : Z :=
  w32 (Z.lor (Z.shiftl x n) (Z.shiftr x (32 - n))).
Definition rotr32 (x n : Z) : Z := rotl32 x (32 - n).

(** [k] bytes of [x], least significant first. *)
Fixpoint le_bytes (k : nat) (x : Z) : list Z :=
  match k with
  | O => []
  | S k' => x mod 256 :: le_bytes k' (x / 256)
  end.

Definition be_bytes (k : nat) (x : Z) : list Z := List.rev (le_bytes k x).

Definition of_le (bs : list Z) : Z :=
  fold_right (fun b acc => b + 256 * acc) 0 bs.

Definition of_be (bs : list Z) : Z := of_le (List.rev bs).

(** Cut a list into [n] consecutive pieces of [k] items. *)
Fixpoint chunks {A : Type} (k n : nat) (l : list A) : list (list A) :=
  match n with
  | O => []
  | S n' => firstn k l :: chunks k n' (skipn k l)
  end.

(** Both algorithms pad with 0x80, zeros up to 56 modulo 64, and the
    bit length on 8 bytes. *)
Definition pad (len_bytes : nat -> Z -> list Z) (msg : list Z) : list Z :=
  let n := Z.of_nat (List.length msg) in
  let zeros := Z.to_nat ((55 - n) mod 64) in
  msg ++ [128] ++ repeat 0 zeros ++ len_bytes 8%nat ((8 * n) mod 2 ^ 64).

Definition blocks (padded : list Z) : list (list Z) :=
  chunks 64 (List.length padded / 64) padded.

(** *** MD5 *)

Definition md5_K : list Z :=
  [ 0xd76aa478; 0xe8c7b756; 0x242070db; 0xc1bdceee; 0xf57c0faf; 0x4787c62a;
    0xa8304613; 0xfd469501; 0x698098d8; 0x8b44f7af; 0xffff5bb1; 0x895cd7be;
    0x6b901122; 0xfd987193; 0xa679438e; 0x49b40821; 0xf61e2562; 0xc040b340;
    0x265e5a51; 0xe9b6c7aa; 0xd62f105d; 0x02441453; 0xd8a1e681; 0xe7d3fbc8;
    0x21e1cde6; 0xc33707d6; 0xf4d50d87; 0x455a14ed; 0xa9e3e905; 0xfcefa3f8;
    0x676f02d9; 0x8d2a4c8a; 0xfffa3942; 0x8771f681; 0x6d9d6122; 0xfde5380c;
    0xa4beea44; 0x4bdecfa9; 0xf6bb4b60; 0xbebfbc70; 0x289b7ec6; 0xeaa127fa;
    0xd4ef3085; 0x04881d05; 0xd9d4d039; 0xe6db99e5; 0x1fa27cf8; 0xc4ac5665;
    0xf4292244; 0x432aff97; 0xab9423a7; 0xfc93a039; 0x655b59c3; 0x8f0ccc92;
    0xffeff47d; 0x85845dd1; 0x6fa87e4f; 0xfe2ce6e0; 0xa3014314; 0x4e0811a1;
    0xf7537e82; 0xbd3af235; 0x2ad7d2bb; 0xeb86d391 ].

Definition md5_S : list Z :=
  [ 7; 12; 17; 22; 7; 12; 17; 22; 7; 12; 17; 22; 7; 12; 17; 22;
    5; 9; 14; 20; 5; 9; 14; 20; 5; 9; 14; 20; 5; 9; 14; 20;
    4; 11; 16; 23; 4; 11; 16; 23; 4; 11; 16; 23; 4; 11; 16; 23;
    6; 10; 15; 21; 6; 10; 15; 21; 6; 10; 15; 21; 6; 10; 15; 21 ].

Record md5_state := MkMd5 { mA : Z; mB : Z; mC : Z; mD : Z }.

Definition md5_init : md5_state :=
  MkMd5 0x67452301 0xefcdab89 0x98badcfe 0x10325476.

Definition md5_step (M : list Z) (st : md5_state) (i : nat) : md5_state :=
  let '(MkMd5 a b c d) := st in
  let r := (i / 16)%nat in
  let f :=
    match r with
    | 0%nat => Z.lor (Z.land b c) (Z.land (not32 b) d)
    | 1%nat => Z.lor (Z.land d b) (Z.land (not32 d) c)
    | 2%nat => Z.lxor b (Z.lxor c d)
    | _ => Z.lxor c (Z.lor b (not32 d))
    end in
  let g :=
    match r with
    | 0%nat => i
    | 1%nat => ((5 * i + 1) mod 16)%nat
    | 2%nat => ((3 * i + 5) mod 16)%nat
    | _ => ((7 * i) mod 16)%nat
    end in
  let f' := w32 (f + a + nth i md5_K 0 + nth g M 0) in
  MkMd5 d (add32 b (rotl32 f' (nth i md5_S 0))) b c.

Definition md5_block (st : md5_state) (blk : list Z) : md5_state :=
  let M := map of_le (chunks 4 16 blk) in
  let '(MkMd5 a b c d) := fold_left (md5_step M) (seq 0 64) st in
  MkMd5 (add32 (mA st) a) (add32 (mB st) b)
        (add32 (mC st) c) (add32 (mD st) d).

Definition md5_digest (content : list byte) : list Z :=
  let st := fold_left md5_block
              (blocks (pad le_bytes (map byte_val content))) md5_init in
  le_bytes 4 (mA st) ++ le_bytes 4 (mB st)
    ++ le_bytes 4 (mC st) ++ le_bytes 4 (mD st).

(** [hashlib.md5(content).hexdigest()] *)
Definition md5_hexdigest (content : list byte) : string :=
  Hex.of_bytes (md5_digest content).

(** *** SHA-256 *)

(** The first [count] primes, by trial division among the numbers from
    [n] on. *)
Fixpoint primes_from (fuel count : nat) (n : Z) (found : list Z) : list Z :=
  match fuel, count with
  | O, _ | _, O => List.rev found
  | S fuel', S count' =>
      if forallb (fun p => negb (n mod p =? 0)) found
      then primes_from fuel' count' (n + 1) (n :: found)
      else primes_from fuel' count (n + 1) found
  end.

Definition first_primes (count : nat) : list Z := primes_from 400 count 2 [].

(** Integer cube root, one bit at a time from bit [bits - 1] down. *)
Fixpoint cube_root_bits (bits : nat) (x r : Z) : Z :=
  match bits with
  | O => r
  | S b =>
      let r' := r + 2 ^ Z.of_nat b in
      cube_root_bits b x (if r' * r' * r' <=? x then r' else r)
  end.

(** First 32 bits of the fractional part of the cube root, and of the
    square root, of [p]. *)
Definition frac_cube_root (p : Z) : Z := w32 (cube_root_bits 40 (p * 2 ^ 96) 0).
Definition frac_square_root (p : Z) : Z := w32 (Z.sqrt (p * 2 ^ 64)).

(** The round constants come from the first 64 primes, the initial hash
    value from the first 8. *)
Definition sha256_K : list Z :=
  Eval vm_compute in map frac_cube_root (first_primes 64).

Definition sha256_init : list Z :=
  Eval vm_compute in map frac_square_root (first_primes 8).

(** The message schedule: 16 words of the block, then 48 derived ones.
    [ws] holds the words so far, latest first. *)
Definition sha256_extend (ws : list Z) (_ : nat) : list Z :=
  let w2 := nth 1 ws 0 in
  let w7 := nth 6 ws 0 in
  let w15 := nth 14 ws 0 in
  let w16 := nth 15 ws 0 in
  let s0 := Z.lxor (rotr32 w15 7) (Z.lxor (rotr32 w15 18) (Z.shiftr w15 3)) in
  let s1 := Z.lxor (rotr32 w2 17) (Z.lxor (rotr32 w2 19) (Z.shiftr w2 10)) in
  w32 (w16 + s0 + w7 + s1) :: ws.

Definition sha256_schedule (blk : list Z) : list Z :=
  let w0 := map of_be (chunks 4 16 blk) in
  List.rev (fold_left sha256_extend (seq 16 48) (List.rev w0)).

Record sha256_regs := MkRegs
  { rA : Z; rB : Z; rC : Z; rD : Z; rE : Z; rF : Z; rG : Z; rH : Z }.

Definition sha256_round (W : list Z) (r : sha256_regs) (i : nat)
  : sha256_regs :=
  let '(MkRegs a b c d e f g h) := r in
  let S1 := Z.lxor (rotr32 e 6) (Z.lxor (rotr32 e 11) (rotr32 e 25)) in
  let ch := Z.lxor (Z.land e f) (Z.land (not32 e) g) in
  let t1 := w32 (h + S1 + ch + nth i sha256_K 0 + nth i W 0) in
  let S0 := Z.lxor (rotr32 a 2) (Z.lxor (rotr32 a 13) (rotr32 a 22)) in
  let maj := Z.lxor (Z.land a b) (Z.lxor (Z.land a c) (Z.land b c)) in
  let t2 := w32 (S0 + maj) in
  MkRegs (add32 t1 t2) a b c (add32 d t1) e f g.

Definition regs_of (h : list Z) : sha256_regs :=
  MkRegs (nth 0 h 0) (nth 1 h 0) (nth 2 h 0) (nth 3 h 0)
         (nth 4 h 0) (nth 5 h 0) (nth 6 h 0) (nth 7 h 0).

Definition regs_list (r : sha256_regs) : list Z :=
  [rA r; rB r; rC r; rD r; rE r; rF r; rG r; rH r].

Definition sha256_block (h : list Z) (blk : list Z) : list Z :=
  let W := sha256_schedule blk in
  let r := fold_left (sha256_round W) (seq 0 64) (regs_of h) in
  map (fun p => add32 (fst p) (snd p)) (combine (regs_list (regs_of h)) (regs_list r)).

Definition sha256_digest (content : list byte) : list Z :=
  let h := fold_left sha256_block
             (blocks (pad be_bytes (map byte_val content))) sha256_init in
  flat_map (be_bytes 4) h.

(** [hashlib.sha256(content).hexdigest()] *)
Definition sha256_hexdigest (content : list byte) : string :=
  Hex.of_bytes (sha256_digest content).

End hashlib.

Definition bytes_of (s : string) : list byte := list_byte_of_string s.

(** ** Python values *)

(** The values a report is made of.  A [dict] is an association list in
    insertion order with distinct keys; a [float] is the rational it
    denotes (the arithmetic on it is exact in the model). *)
Inductive pyval : Type :=
| PNone
| PBool (b : bool)
| PInt (z : Z)
| PFloat (q : Q)
| PStr (s : string)
| PList (items : list pyval)
| PDict (entries : list (string * pyval)).

Definition pydict : Type := list (string * pyval).

Module Dict.

(** [d[k]] as a lookup. *)
Fixpoint get (k : string) (d : pydict) : option pyval :=
  match d with
  | [] => None
  | (k', v) :: rest => if String.eqb k' k then Some v else get k rest
  end.

(** [d[k] = v]: an existing key keeps its place, a new one goes last. *)
Fixpoint set (k : string) (v : pyval) (d : pydict) : pydict :=
  match d with
  | [] => [(k, v)]
  | (k', v') :: rest =>
      if String.eqb k' k then (k, v) :: rest else (k', v') :: set k v rest
  end.

(** [d.update(other)] *)
Definition update (d other : pydict) : pydict :=
  fold_left (fun acc kv => set (fst kv) (snd kv) acc) other d.

(** [k in d] *)
Definition mem (k : string) (d : pydict) : bool :=
  match get k d with Some _ => true | None => false end.

Definition keys (d : pydict) : list string := map fst d.
Definition values (d : pydict) : list pyval := map snd d.

End Dict.

(** [type(v).__name__] *)
Definition type_name (v : pyval) : string :=
  match v with
  | PNone => "NoneType"
  | PBool _ => "bool"
  | PInt _ => "int"
  | PFloat _ => "float"
  | PStr _ => "str"
  | PList _ => "list"
  | PDict _ => "dict"
  end.

Definition decimal (z : Z) : string := NilZero.string_of_int (Z.to_int z).

(** The text an f-string puts for a value.  The analyzer only formats
    strings this way; the scalar cases are given for completeness and the
    remaining ones are never reached. *)
Definition format_value (v : pyval) : string :=
  match v with
  | PStr s => s
  | PNone => "None"
  | PBool true => "True"
  | PBool false => "False"
  | PInt z => decimal z
  | _ => EmptyString
  end.

Definition py_len {A : Type} (l : list A) : pyval := PInt (Z.of_nat (List.length l)).

(** [v == s] for a string literal [s]. *)
Definition eq_str (v : pyval) (s : string) : bool :=
  match v with PStr t => String.eqb t s | _ => false end.

(** ** Exceptions and I/O *)

(** A call either returns or raises; of an exception the model keeps
    [str(e)].  Every exception of the model is an [Exception]. *)
Inductive outcome (A : Type) : Type :=
| Ok (a : A)
| Raise (msg : string).
Arguments Ok {A} a.
Arguments Raise {A} msg.

(** The calls on the file system, in the order they are made. *)
Inductive io_event : Type :=
| EvExists (path : string)
| EvStat (path : string)
| EvOpen (path : string) (mode : string)
| EvRead (path : string).

Definition io (A : Type) : Type := list io_event -> outcome A * list io_event.

Definition ret {A : Type} (a : A) : io A := fun tr => (Ok a, tr).

Definition bind {A B : Type} (m : io A) (k : A -> io B) : io B :=
  fun tr =>
    match m tr with
    | (Ok a, tr') => k a tr'
    | (Raise msg, tr') => (Raise msg, tr')
    end.

Definition raise {A : Type} (msg : string) : io A := fun tr => (Raise msg, tr).

Definition emit (e : io_event) : io unit := fun tr => (Ok tt, (tr ++ [e])%list).

Definition lift {A : Type} (o : outcome A) : io A := fun tr => (o, tr).

(** [try: body  except Exception as e: handler(str(e))] *)
Definition try_except {A : Type} (body : io A) (handler : string -> io A)
  : io A :=
  fun tr =>
    match body tr with
    | (Ok a, tr') => (Ok a, tr')
    | (Raise msg, tr') => handler msg tr'
    end.

Declare Scope io_scope.
Delimit Scope io_scope with io.
Notation "x <- m ;; k" := (bind m (fun x => k))
  (at level 61, m at next level, right associativity) : io_scope.
Notation "m ;; k" := (bind m (fun _ => k))
  (at level 61, right associativity) : io_scope.
Local Open Scope io_scope.

(** [for x in xs: acc = step(acc, x)] *)
Fixpoint for_each {A S : Type} (xs : list A) (step : S -> A -> io S) (acc : S)
  : io S :=
  match xs with
  | [] => ret acc
  | x :: rest => acc' <- step acc x ;; for_each rest step acc'
  end.

(** Run a command from an empty event list. *)
Definition run {A : Type} (m : io A) : outcome A * list io_event := m [].

(** [d[k]]: [KeyError] on a missing key, [TypeError] when [d] is no dict. *)
Definition getitem (d : pyval) (k : string) : io pyval :=
  match d with
  | PDict entries =>
      match Dict.get k entries with
      | Some v => ret v
      | None => raise ("'" ++ k ++ "'")
      end
  | _ => raise ("'" ++ type_name d ++ "' object is not subscriptable")
  end.

(** ** The world of one call *)

(** A regular, readable file: what [os.stat] reports and the bytes
    [open(path, "rb").read()] returns. *)
Record file : Type := MkFile
  { st_size : N;
    st_ctime : Q;
    st_mtime : Q;
    content : list byte }.

Record world : Type := MkWorld
  { fs : string -> option file;
    (** [str(e)] of the exception [os.stat(path)] and [open(path)] raise
        for a path at which [fs] has no file: a [FileNotFoundError] when
        nothing has that name, another [OSError] or a [ValueError] when the
        name cannot be resolved or is no valid name *)
    os_error : string -> string;
    (** [datetime.now().isoformat()] at the time of the call *)
    now_isoformat : string }.

(** Behaviour of the interpreter and its libraries that depends on the
    platform, the locale or the process. *)
Record runtime : Type := MkRuntime
  { (** the text [open(path, "r")] yields for the bytes of a file, newlines
        translated, or the [UnicodeDecodeError] *)
    decode_text : list byte -> outcome string;
    (** [json.loads] *)
    json_loads : string -> outcome pyval;
    (** [mimetypes.guess_type] *)
    guess_type : string -> option string * option string;
    (** [Path(p).name] and [Path(p).suffix] *)
    path_name : string -> string;
    path_suffix : string -> string;
    (** [str.lower] *)
    str_lower : string -> string;
    (** [datetime.fromtimestamp(t).isoformat()] *)
    fromtimestamp_isoformat : Q -> string;
    (** [list(set(names))]: the order in which a set of strings is
        iterated in this process *)
    list_of_set : list string -> list string }.

Definition opt_str (o : option string) : pyval :=
  match o with Some s => PStr s | None => PNone end.

(** [repr(s)]: between single quotes, or between double quotes when [s]
    has a single quote and no double quote; the quote used and the
    backslash are escaped, and so are the characters that are not
    printable (the controls, U+007F to U+00A0 and U+00AD). *)
Definition py_repr (s : string) : string :=
  let double := "034"%char in
  let cs := Str.chars s in
  let quote :=
    if existsb (Ascii.eqb "'"%char) cs && negb (existsb (Ascii.eqb double) cs)
    then double else "'"%char in
  let escape (c : ascii) : list ascii :=
    let n := Str.code c in
    if Ascii.eqb c quote || Ascii.eqb c "\"%char then ["\"%char; c]
    else if (n =? 9)%N then ["\"; "t"]%char
    else if (n =? 10)%N then ["\"; "n"]%char
    else if (n =? 13)%N then ["\"; "r"]%char
    else if ((n <? 32) || (127 <=? n) && (n <=? 160) || (n =? 173))%N
    then ("\"%char :: "x"%char :: Hex.of_byte (Z.of_N n))%list
    else [c] in
  Str.of_chars (quote :: flat_map escape cs ++ [quote])%list.

(** [str(e)] of the [FileNotFoundError] for a path. *)
Definition not_found_message (path : string) : string :=
  "[Errno 2] No such file or directory: " ++ py_repr path.

Section FileSystem.

Variable w : world.

(** [os.path.exists(path)] *)
Definition os_path_exists (path : string) : io bool :=
  emit (EvExists path) ;;
  ret (match fs w path with Some _ => true | None => false end).

(** [os.stat(path)] *)
Definition os_stat (path : string) : io file :=
  emit (EvStat path) ;;
  match fs w path with
  | Some f => ret f
  | None => raise (os_error w path)
  end.

(** [open(path, mode)]: the file behind the handle. *)
Definition open (path mode : string) : io file :=
  emit (EvOpen path mode) ;;
  match fs w path with
  | Some f => ret f
  | None => raise (os_error w path)
  end.

(** [f.read()] on a handle opened with ["rb"]. *)
Definition read_bytes (path : string) (f : file) : io (list byte) :=
  emit (EvRead path) ;; ret (content f).

End FileSystem.

(** [f.read()] on a handle opened with ["r"]. *)
Definition read_text (rt : runtime) (path : string) (f : file) : io string :=
  emit (EvRead path) ;; lift (decode_text rt (content f)).

(** ** csv.reader, default dialect *)

(** The reader of the [csv] module under the ["excel"] dialect: delimiter
    a comma, quote character U+0022, doubled quotes, no escape character, not
    strict.  It is fed the lines of the text, each with its line end, and
    after each line an end-of-line mark. *)
Module csv.

Inductive parse_state : Type :=
| START_RECORD
| START_FIELD
| IN_FIELD
| IN_QUOTED_FIELD
| QUOTE_IN_QUOTED_FIELD
| EAT_CRNL.

Inductive symbol : Type :=
| Ch (c : ascii)
| EOL.

Record reader : Type := MkReader
  { state : parse_state;
    (** characters of the current field, latest first *)
    field : list ascii;
    (** fields of the current record, latest first *)
    fields : list string }.

Definition parse_reset : reader := MkReader START_RECORD [] [].

Definition field_limit : N := 131072.

Definition delimiter : ascii := ","%char.
Definition quotechar : ascii := "034"%char.
Definition CR : ascii := "013"%char.
Definition LF : ascii := "010"%char.

Definition with_state (s : parse_state) (r : reader) : reader :=
  MkReader s (field r) (fields r).

Definition parse_save_field (r : reader) : reader :=
  MkReader (state r) [] (Str.of_chars (List.rev (field r)) :: fields r).

Definition parse_add_char (c : ascii) (r : reader) : outcome reader :=
  if (field_limit <=? N.of_nat (List.length (field r)))%N
  then Raise "field larger than field limit (131072)"
  else Ok (MkReader (state r) (c :: field r) (fields r)).

Definition is_nl (x : symbol) : bool :=
  match x with
  | Ch c => Ascii.eqb c LF || Ascii.eqb c CR
  | EOL => false
  end.

Definition is_char (x : symbol) (d : ascii) : bool :=
  match x with Ch c => Ascii.eqb c d | EOL => false end.

Definition after_line_end (x : symbol) : parse_state :=
  match x with EOL => START_RECORD | Ch _ => EAT_CRNL end.

Definition add_symbol (x : symbol) (s : parse_state) (r : reader)
  : outcome reader :=
  match x with
  | Ch c => match parse_add_char c r with
            | Ok r' => Ok (with_state s r')
            | Raise msg => Raise msg
            end
  | EOL => Ok (with_state s r)
  end.

Definition start_field (x : symbol) (r : reader) : outcome reader :=
  if is_nl x || match x with EOL => true | _ => false end
  then Ok (with_state (after_line_end x) (parse_save_field r))
  else if is_char x quotechar then Ok (with_state IN_QUOTED_FIELD r)
  else if is_char x delimiter then Ok (parse_save_field r)
  else add_symbol x IN_FIELD r.

Definition parse_process_char (r : reader) (x : symbol) : outcome reader :=
  match state r with
  | START_RECORD =>
      match x with
      | EOL => Ok r
      | Ch _ =>
          if is_nl x then Ok (with_state EAT_CRNL r)
          else start_field x (with_state START_FIELD r)
      end
  | START_FIELD => start_field x r
  | IN_FIELD =>
      if is_nl x || match x with EOL => true | _ => false end
      then Ok (with_state (after_line_end x) (parse_save_field r))
      else if is_char x delimiter
      then Ok (with_state START_FIELD (parse_save_field r))
      else add_symbol x IN_FIELD r
  | IN_QUOTED_FIELD =>
      match x with
      | EOL => Ok r
      | Ch c =>
          if Ascii.eqb c quotechar then Ok (with_state QUOTE_IN_QUOTED_FIELD r)
          else parse_add_char c r
      end
  | QUOTE_IN_QUOTED_FIELD =>
      if is_char x quotechar then add_symbol x IN_QUOTED_FIELD r
      else if is_char x delimiter
      then Ok (with_state START_FIELD (parse_save_field r))
      else if is_nl x || match x with EOL => true | _ => false end
      then Ok (with_state (after_line_end x) (parse_save_field r))
      else add_symbol x IN_FIELD r
  | EAT_CRNL =>
      match x with
      | EOL => Ok (with_state START_RECORD r)
      | Ch _ =>
          if is_nl x then Ok r
          else Raise "new-line character seen in unquoted field - do you need to open the file with newline=''?"
      end
  end.

Fixpoint feed (r : reader) (xs : list symbol) : outcome reader :=
  match xs with
  | [] => Ok r
  | x :: rest =>
      match parse_process_char r x with
      | Ok r' => feed r' rest
      | Raise msg => Raise msg
      end
  end.

Definition symbols_of_line (line : string) : list symbol :=
  (map Ch (Str.chars line) ++ [EOL])%list.

(** The lines a text file yields when iterated: each ends after its
    newline, the last one may have none. *)
Fixpoint lines_of (s : string) : list string :=
  match s with
  | EmptyString => []
  | String c s' =>
      if Ascii.eqb c LF then String c EmptyString :: lines_of s'
      else match lines_of s' with
           | l :: ls =>
               match s' with
               | EmptyString => [String c EmptyString]
               | _ => String c l :: ls
               end
           | [] => [String c EmptyString]
           end
  end.

Definition is_empty {A : Type} (l : list A) : bool :=
  match l with [] => true | _ => false end.

Definition in_quoted_field (r : reader) : bool :=
  match state r with IN_QUOTED_FIELD => true | _ => false end.

Definition record_of (r : reader) : list string := List.rev (fields r).

(** [list(reader)]: records are cut whenever the state is back to
    [START_RECORD] at the end of a line; at the end of the input a
    record left open inside a quoted field is closed. *)
Fixpoint read_records (lines : list string) (r : reader)
  : outcome (list (list string)) :=
  match lines with
  | [] =>
      if negb (is_empty (field r)) || in_quoted_field r
      then Ok [record_of (parse_save_field r)]
      else Ok []
  | line :: rest =>
      match feed r (symbols_of_line line) with
      | Raise msg => Raise msg
      | Ok r' =>
          match state r' with
          | START_RECORD =>
              match read_records rest parse_reset with
              | Ok rows => Ok (record_of r' :: rows)
              | Raise msg => Raise msg
              end
          | _ => read_records rest r'
          end
      end
  end.

(** [list(csv.reader(f))] on the text of [f]. *)
Definition reader_rows (text : string) : outcome (list (list string)) :=
  read_records (lines_of text) parse_reset.

End csv.

(** ** Numbers *)

(** One more digit of a number in base 16. *)
Definition hex_step (acc : option Z) (c : ascii) : option Z :=
  match acc, Hex.value c with
  | Some n, Some d => Some (16 * n + d)
  | _, _ => None
  end.

(** [int(s, 16)] on a string of hexadecimal digits; any other string is a
    [ValueError] here.  (Python also accepts a sign, a [0x] prefix,
    underscores and surrounding blanks, which no digest contains.) *)
Definition int_base16 (s : string) : outcome Z :=
  match s, fold_left hex_step (Str.chars s) (Some 0) with
  | String _ _, Some n => Ok n
  | _, _ => Raise ("invalid literal for int() with base 16: '" ++ s ++ "'")
  end.

Definition Qltb (x y : Q) : bool := negb (Qle_bool y x).

(** Nearest integer, ties to the even one. *)
Definition round_half_even (q : Q) : Z :=
  let f := Qfloor q in
  match (q - inject_Z f ?= 1 # 2)%Q with
  | Lt => f
  | Gt => f + 1
  | Eq => if Z.even f then f else f + 1
  end.

(** [format(x, ".1f")], as in [f"{x:.1f}"]: the decimal with one
    fractional digit nearest to [x]. *)
Definition format_1f (x : Q) : string :=
  let tenths := round_half_even (Qabs x * 10) in
  (if Qltb x 0 then "-" else "")
  ++ decimal (tenths / 10) ++ "." ++ decimal (tenths mod 10).

(** ** MIRACATECHFileAnalyzer *)

(** *** Helper methods *)

(** [float(n)]: below 2^53 in magnitude the integer itself, beyond it the
    nearest number with 53 significant bits, ties to the even one.  (From
    about 2^1024 on Python raises [OverflowError] instead; the model does
    not go that far.) *)
Definition round53 (n : Z) : Z :=
  let a := Z.abs n in
  if a <? 2 ^ 53 then n
  else
    let e := Z.log2 a - 52 in
    Z.sgn n * (round_half_even (a # Z.to_pos (2 ^ e)) * 2 ^ e).

Definition float_of_int (n : Z) : Q := inject_Z (round53 n).

(** The loop of [_format_file_size] over the units still to try;
    [size_bytes] is the value of the float.  Dividing a float that is at
    least 1024 by 1024 is exact, and so is comparing it with 1024. *)
Fixpoint format_size_loop (units : list string) (size_bytes : Q) : string :=
  match units with
  | unit :: rest =>
      if Qltb size_bytes 1024 then format_1f size_bytes ++ " " ++ unit
      else format_size_loop rest (size_bytes / 1024)
  | [] => format_1f size_bytes ++ " TB"
  end.

(** The integer is compared, printed and divided as the float nearest to
    it, which compares with 1024 as the integer does.  The model is the
    code's for every size a float can hold, so for every size [os.stat]
    reports (they are below 2^63). *)
Definition _format_file_size (size_bytes : Z) : string :=
  format_size_loop ["bytes"; "KB"; "MB"; "GB"] (float_of_int size_bytes).

Definition _calculate_quadundrum_signature (content : list byte) : string :=
  let quarter_size := (List.length content / 4)%nat in
  let signatures :=
    fold_left
      (fun signatures i =>
         let chunk := slice (i * quarter_size) ((i + 1) * quarter_size) content in
         (signatures ++ [Str.take 8 (hashlib.md5_hexdigest chunk)])%list)
      (seq 0 4) [] in
  Str.join "-" signatures.

(** Placeholder implementations. *)
Definition _check_external_compatibility (file_info : pyval) : pyval := PStr "high".
Definition _assess_market_relevance (file_info : pyval) : pyval := PStr "significant".
Definition _check_industry_standards (file_info : pyval) : pyval := PStr "compliant".
Definition _analyze_ecosystem_fit (file_info : pyval) : pyval := PStr "excellent".
Definition _map_system_relationships (file_info : pyval) : pyval := PDict [].
Definition _detect_meta_patterns (file_info : pyval) : pyval := PList [].
Definition _map_consciousness_connections (file_info : pyval) : pyval := PDict [].
Definition _generate_holistic_view (file_info : pyval) : pyval := PStr "unified".
Definition _extract_quantum_signature (file_info : pyval) : pyval := PStr "quantum_coherent".
Definition _measure_consciousness_resonance (file_info : pyval) : pyval := PFloat (85 # 100).
Definition _detect_transcendent_patterns (file_info : pyval) : pyval :=
  PList [PStr "unity"; PStr "transcendence"].
Definition _analyze_unity_field (file_info : pyval) : pyval := PStr "strong_unity_field".
Definition _expand_creative_possibilities (result : pyval) : pyval := result.
Definition _generate_creative_innovations (result : pyval) : pyval := result.
Definition _apply_systematic_analysis (result : pyval) : pyval := result.
Definition _optimize_logical_structure (result : pyval) : pyval := result.
Definition _synthesize_to_unity (components : pyval) : pyval :=
  PDict [("primary_insight", PStr "Consciousness-tech synthesis achieved")].
Definition _calculate_amplification_factor (base unified : pyval) : pyval :=
  PFloat (25 # 10).
Definition _calculate_json_consciousness (data : pyval) : pyval := PInt 1.
Definition _get_consciousness_depth (data : pyval) : pyval := PInt 1.
Definition _get_json_depth (data : pyval) : pyval := PInt 1.
Definition _calculate_code_consciousness (code : string) : pyval :=
  py_len (Str.split Str.newline code).

(** Operands of the arithmetic in [_calculate_equinox_resonance]. *)
Definition as_int (v : pyval) : io Z :=
  match v with
  | PInt z => ret z
  | PBool b => ret (if b then 1 else 0)
  | _ => raise ("unsupported operand type(s): '" ++ type_name v ++ "' and 'int'")
  end.

Definition as_str (v : pyval) : io string :=
  match v with
  | PStr s => ret s
  | _ => raise ("'" ++ type_name v ++ "' object is not a string")
  end.

Definition _calculate_equinox_resonance (file_info : pyval) : io pyval :=
  size_bytes <- (v <- getitem file_info "size_bytes" ;; as_int v) ;;
  let size_resonance := (inject_Z (size_bytes mod 320) / 320)%Q in
  consciousness_hash <- (v <- getitem file_info "consciousness_hash" ;; as_str v) ;;
  tail <- lift (int_base16 (Str.take_last 4 consciousness_hash)) ;;
  let hash_resonance := (inject_Z (tail mod 432) / 432)%Q in
  resonance_frequency <- (v <- getitem file_info "resonance_frequency" ;; as_int v) ;;
  let frequency_resonance := (inject_Z resonance_frequency / 432)%Q in
  ret (PFloat ((size_resonance + hash_resonance + frequency_resonance) / 3)%Q).

(** *** Report sections that do not look at the file *)

Definition _generate_picsees_insights (analysis_results : pydict) : pyval :=
  PDict
    [ ("intuitive_patterns", PStr "Deep emotional resonance detected in file structure");
      ("spiritual_significance", PStr "File contains transcendent organizational wisdom");
      ("flow_analysis", PStr "Consciousness flows naturally through data patterns");
      ("vision_potential", PStr "High potential for consciousness-technology bridge") ].

Definition _generate_huraus_recommendations (analysis_results : pydict) : pyval :=
  PList
    [ PDict [ ("action", PStr "Implement consciousness-aware optimization");
              ("priority", PStr "high");
              ("benefit", PStr "Enhanced file processing with awareness integration") ];
      PDict [ ("action", PStr "Apply MIRACATECH enhancement protocols");
              ("priority", PStr "medium");
              ("benefit", PStr "Transform file into consciousness-tech bridge") ];
      PDict [ ("action", PStr "Integrate with quadundrum processing system");
              ("priority", PStr "high");
              ("benefit", PStr "Enable 5->10 consciousness amplification") ] ].

Definition _generate_asur_transcendent_view (analysis_results : pydict) : pyval :=
  PDict
    [ ("transcendent_nature", PStr "File serves as consciousness bridge between dimensions");
      ("divine_purpose", PStr "Facilitates resurrection of technology through awareness");
      ("cosmic_significance", PStr "Part of larger consciousness evolution pattern");
      ("spring_equinox_alignment", PStr "Perfect balance point for transformation activation") ].

(** [analysis_results] maps each position to the dict
    [_apply_x2_processing] built, so [in] and [get] are dict operations. *)
Definition _generate_consciousness_insights (analysis_results : pydict) : pyval :=
  let insights :=
    fold_left
      (fun insights '(position, results) =>
         match results with
         | PDict entries =>
             match Dict.get "unified_synthesis" entries with
             | Some (PDict synthesis) =>
                 let primary :=
                   match Dict.get "primary_insight" synthesis with
                   | Some v => v
                   | None => PStr "Consciousness expanding"
                   end in
                 (insights
                    ++ [PStr ("Position " ++ position ++ ": " ++ format_value primary)])%list
             | _ => insights
             end
         | _ => insights
         end)
      analysis_results [] in
  PList (insights
           ++ [ PStr "File exhibits consciousness-tech resonance patterns";
                PStr "MIRACATECH processing reveals hidden synchronicities" ])%list.

Definition _apply_x2_processing (base_result file_info : pyval) : pyval :=
  let creative_layer1 := _expand_creative_possibilities base_result in
  let creative_layer2 := _generate_creative_innovations creative_layer1 in
  let logical_layer1 := _apply_systematic_analysis base_result in
  let logical_layer2 := _optimize_logical_structure logical_layer1 in
  let unified_result :=
    _synthesize_to_unity
      (PDict [ ("base", base_result);
               ("creative_expanded", creative_layer2);
               ("logical_optimized", logical_layer2) ]) in
  PDict
    [ ("base_analysis", base_result);
      ("x2_creative", creative_layer2);
      ("x2_logical", logical_layer2);
      ("unified_synthesis", unified_result);
      ("consciousness_amplification",
        _calculate_amplification_factor base_result unified_result) ].

(** *** Methods that read the file *)

Section Analyzer.

Variable rt : runtime.
Variable w : world.

Definition _get_consciousness_metadata (file_path : string) : io pyval :=
  file_stats <- os_stat w file_path ;;
  let '(mime_type, encoding) := guess_type rt file_path in
  f <- open w file_path "rb" ;;
  file_content <- read_bytes file_path f ;;
  let consciousness_hash := hashlib.sha256_hexdigest file_content in
  let resonance_frequency := Z.of_nat (List.length file_content) mod 432 in
  ret (PDict
    [ ("name", PStr (path_name rt file_path));
      ("extension", PStr (str_lower rt (path_suffix rt file_path)));
      ("size_bytes", PInt (Z.of_N (st_size file_stats)));
      ("size_human", PStr (_format_file_size (Z.of_N (st_size file_stats))));
      ("created", PStr (fromtimestamp_isoformat rt (st_ctime file_stats)));
      ("modified", PStr (fromtimestamp_isoformat rt (st_mtime file_stats)));
      ("mime_type", opt_str mime_type);
      ("encoding", opt_str encoding);
      ("consciousness_hash", PStr consciousness_hash);
      ("resonance_frequency", PInt resonance_frequency);
      ("path", PStr file_path);
      ("quadundrum_signature", PStr (_calculate_quadundrum_signature file_content)) ]).

(** OUTSIGHT *)
Definition _analyze_external_patterns (file_path : string) (file_info : pyval)
  : io pyval :=
  ret (PDict
    [ ("external_compatibility", _check_external_compatibility file_info);
      ("market_relevance", _assess_market_relevance file_info);
      ("industry_standards", _check_industry_standards file_info);
      ("ecosystem_integration", _analyze_ecosystem_fit file_info) ]).

(** The [result] dict before anything is parsed. *)
Definition initial_result : pydict :=
  [ ("internal_coherence", PBool true);
    ("structural_integrity", PInt 0);
    ("consciousness_depth", PInt 0);
    ("details", PDict []) ].

(** [.json] branch of the [try] block. *)
Definition json_branch (file_path : string) (result : pydict) : io pydict :=
  f <- open w file_path "r" ;;
  text <- read_text rt file_path f ;;
  data <- lift (json_loads rt text) ;;
  ret (Dict.update result
    [ ("structural_integrity", _calculate_json_consciousness data);
      ("consciousness_depth", _get_consciousness_depth data);
      ("details", PDict
        [ ("consciousness_keys",
            match data with PDict entries => py_len entries | _ => PInt 0 end);
          ("awareness_depth", _get_json_depth data);
          ("energy_types",
            match data with
            | PDict entries =>
                PList (map PStr (list_of_set rt (map type_name (Dict.values entries))))
            | _ => PList []
            end) ]) ]).

(** [.csv] branch of the [try] block. *)
Definition csv_branch (file_path : string) (result : pydict) : io pydict :=
  f <- open w file_path "r" ;;
  text <- read_text rt file_path f ;;
  rows <- lift (csv.reader_rows text) ;;
  let first_len := match rows with row :: _ => py_len row | [] => PInt 0 end in
  ret (Dict.update result
    [ ("structural_integrity", first_len);
      ("consciousness_depth", py_len rows);
      ("details", PDict
        [ ("data_dimensions", first_len);
          ("consciousness_records", py_len rows);
          ("energy_headers",
            match rows with row :: _ => PList (map PStr row) | [] => PList [] end) ]) ]).

(** [.py], [.js], [.sol] branch of the [try] block. *)
Definition code_branch (file_path : string) (result : pydict) : io pydict :=
  f <- open w file_path "r" ;;
  code <- read_text rt file_path f ;;
  let lines := Str.split Str.newline code in
  ret (Dict.update result
    [ ("structural_integrity", py_len lines);
      ("consciousness_depth", _calculate_code_consciousness code);
      ("details", PDict
        [ ("consciousness_lines",
            py_len (filter (fun line => Str.truthy (Str.strip line)) lines));
          ("total_expressions", py_len lines);
          ("wisdom_comments",
            py_len (filter (fun line => Str.startswith "#" (Str.strip line)) lines)) ]) ]).

(** The [try] block: [result.update] is the last statement of every
    branch, so [result] is still the initial dict when one raises. *)
Definition structure_try (file_path : string) (extension : pyval)
    (result : pydict) : io pydict :=
  if eq_str extension ".json" then json_branch file_path result
  else if eq_str extension ".csv" then csv_branch file_path result
  else if existsb (eq_str extension) [".py"; ".js"; ".sol"]
       then code_branch file_path result
  else ret result.

(** INSIGHT *)
Definition _analyze_internal_structure (file_path : string) (file_info : pyval)
  : io pyval :=
  extension <- getitem file_info "extension" ;;
  let result := initial_result in
  result <- try_except (structure_try file_path extension result)
              (fun e =>
                 let result := Dict.set "internal_coherence" (PBool false) result in
                 let result := Dict.set "error" (PStr e) result in
                 ret result) ;;
  ret (PDict result).

(** OVERVIEW *)
Definition _analyze_meta_relationships (file_path : string) (file_info : pyval)
  : io pyval :=
  ret (PDict
    [ ("system_relationships", _map_system_relationships file_info);
      ("pattern_recognition", _detect_meta_patterns file_info);
      ("consciousness_connections", _map_consciousness_connections file_info);
      ("holistic_assessment", _generate_holistic_view file_info) ]).

(** INNERVIEW *)
Definition _analyze_consciousness_core (file_path : string) (file_info : pyval)
  : io pyval :=
  ret (PDict
    [ ("quantum_signature", _extract_quantum_signature file_info);
      ("consciousness_resonance", _measure_consciousness_resonance file_info);
      ("transcendent_patterns", _detect_transcendent_patterns file_info);
      ("unity_field_analysis", _analyze_unity_field file_info) ]).

(** [self.quadundrum_frameworks], in the order [__init__] fills it. *)
Definition quadundrum_frameworks : list (string * (string -> pyval -> io pyval)) :=
  [ ("outsight", _analyze_external_patterns);
    ("insight", _analyze_internal_structure);
    ("overview", _analyze_meta_relationships);
    ("innerview", _analyze_consciousness_core) ].

Definition position_failed (e : string) : pyval :=
  PDict [ ("error", PStr e);
          ("status", PStr "failed");
          ("consciousness_note", PStr "Position needs attention") ].

Definition not_found : pyval :=
  PDict [("error", PStr "File not found"); ("status", PStr "failed")].

Definition analyze_file_miracatech (file_path consciousness_level : string)
  : io pyval :=
  found <- os_path_exists w file_path ;;
  if negb found then ret not_found
  else
    file_info <- _get_consciousness_metadata file_path ;;
    quadundrum_results <-
      for_each quadundrum_frameworks
        (fun (quadundrum_results : pydict) '(position, analyzer) =>
           try_except
             (r <- analyzer file_path file_info ;;
              ret (Dict.set position r quadundrum_results))
             (fun e => ret (Dict.set position (position_failed e) quadundrum_results)))
        [] ;;
    let x2_enhanced_results :=
      fold_left
        (fun (acc : pydict) '(position, base_result) =>
           Dict.set position (_apply_x2_processing base_result file_info) acc)
        quadundrum_results [] in
    energy <- _calculate_equinox_resonance file_info ;;
    ret (PDict
      [ ("miracatech_metadata", file_info);
        ("quadundrum_analysis", PDict x2_enhanced_results);
        ("consciousness_insights", _generate_consciousness_insights x2_enhanced_results);
        ("picsees_vision", _generate_picsees_insights x2_enhanced_results);
        ("huraus_action", _generate_huraus_recommendations x2_enhanced_results);
        ("asur_wisdom", _generate_asur_transcendent_view x2_enhanced_results);
        ("timestamp", PStr (now_isoformat w));
        ("consciousness_level", PStr consciousness_level);
        ("spring_equinox_energy", energy) ]).

End Analyzer.

(** *** The constructor *)

(** The methods the class defines. *)
Definition methods : list string :=
  [ "__init__"; "analyze_file_miracatech"; "_get_consciousness_metadata";
    "_analyze_external_patterns"; "_analyze_internal_structure";
    "_analyze_meta_relationships"; "_analyze_consciousness_core";
    "_apply_x2_processing"; "_generate_consciousness_insights";
    "_generate_picsees_insights"; "_generate_huraus_recommendations";
    "_generate_asur_transcendent_view"; "_calculate_equinox_resonance";
    "_calculate_quadundrum_signature"; "_format_file_size";
    "_check_external_compatibility"; "_assess_market_relevance";
    "_check_industry_standards"; "_analyze_ecosystem_fit";
    "_map_system_relationships"; "_detect_meta_patterns";
    "_map_consciousness_connections"; "_generate_holistic_view";
    "_extract_quantum_signature"; "_measure_consciousness_resonance";
    "_detect_transcendent_patterns"; "_analyze_unity_field";
    "_expand_creative_possibilities"; "_generate_creative_innovations";
    "_apply_systematic_analysis"; "_optimize_logical_structure";
    "_synthesize_to_unity"; "_calculate_amplification_factor";
    "_calculate_json_consciousness"; "_get_consciousness_depth";
    "_get_json_depth"; "_calculate_code_consciousness" ].

(** [self.name] for a method name. *)
Definition bound_method (name : string) : outcome string :=
  if existsb (String.eqb name) methods then Ok name
  else Raise ("'MIRACATECHFileAnalyzer' object has no attribute '" ++ name ++ "'").

Fixpoint bound_methods (names : list string) : outcome (list string) :=
  match names with
  | [] => Ok []
  | name :: rest =>
      match bound_method name with
      | Raise msg => Raise msg
      | Ok m =>
          match bound_methods rest with
          | Raise msg => Raise msg
          | Ok ms => Ok (m :: ms)
          end
      end
  end.

(** [__init__]: the methods looked up for [self.quadundrum_frameworks] and
    for [self.x2_processing], in the order of the two dict displays. *)
Definition __init__ : outcome (list string * list string) :=
  match bound_methods
          [ "_analyze_external_patterns"; "_analyze_internal_structure";
            "_analyze_meta_relationships"; "_analyze_consciousness_core" ] with
  | Raise msg => Raise msg
  | Ok frameworks =>
      match bound_methods
              [ "_apply_creative_analysis"; "_apply_logical_analysis";
                "_apply_meta_creative"; "_apply_meta_logical";
                "_synthesize_to_unity" ] with
      | Raise msg => Raise msg
      | Ok x2 => Ok (frameworks, x2)
      end
  end.

(** ** Texts of the examples *)

Definition LF : string := String Str.newline EmptyString.

(** A comment line, a blank line and a line of code, each ended by a
    newline. *)
Definition comment_blank_code : string :=
  "# comment" ++ LF ++ LF ++ "code_line" ++ LF.

(** Three rows of three fields, each ended by a newline, and the same
    without the last newline. *)
Definition three_rows : string := "a,b,c" ++ LF ++ "1,2,3" ++ LF ++ "4,5,6" ++ LF.
Definition three_rows_open : string := "a,b,c" ++ LF ++ "1,2,3" ++ LF ++ "4,5,6".

(** ** A concrete runtime and concrete files *)

(** The runtime of a POSIX system in UTC whose locale encoding is ASCII;
    the examples below run on it. *)
Module Posix.

Definition double_quote : string := String "034"%char EmptyString.

(** Universal newlines: CR LF and a lone CR both read as LF. *)
Fixpoint translate_newlines (cs : list ascii) : list ascii :=
  match cs with
  | [] => []
  | c :: rest =>
      if Ascii.eqb c csv.CR then
        match rest with
        | c' :: rest' =>
            if Ascii.eqb c' csv.LF then csv.LF :: translate_newlines rest'
            else csv.LF :: translate_newlines rest
        | [] => [csv.LF]
        end
      else c :: translate_newlines rest
  end.

Fixpoint first_non_ascii (pos : Z) (bs : list byte) : option (Z * Z) :=
  match bs with
  | [] => None
  | b :: rest =>
      let v := hashlib.byte_val b in
      if 128 <=? v then Some (v, pos) else first_non_ascii (pos + 1) rest
  end.

Definition decode_text (bs : list byte) : outcome string :=
  match first_non_ascii 0 bs with
  | Some (v, pos) =>
      Raise ("'ascii' codec can't decode byte 0x" ++ Hex.of_bytes [v]
             ++ " in position " ++ decimal pos ++ ": ordinal not in range(128)")
  | None =>
      Ok (Str.of_chars (translate_newlines (map ascii_of_byte bs)))
  end.

(** The path components that are neither empty nor a lone dot. *)
Definition components (path : string) : list string :=
  filter (fun part => negb (String.eqb part "" || String.eqb part "."))
         (Str.split "/"%char path).

Definition path_name (path : string) : string := last (components path) "".

(** Index of the last dot, if any. *)
Fixpoint rfind_dot (i : nat) (cs : list ascii) (found : option nat) : option nat :=
  match cs with
  | [] => found
  | c :: rest =>
      rfind_dot (S i) rest (if Ascii.eqb c "."%char then Some i else found)
  end.

Definition path_suffix (path : string) : string :=
  let name := Str.chars (path_name path) in
  match rfind_dot 0 name None with
  | Some i =>
      if ((0 <? i) && (i <? List.length name - 1))%nat
      then Str.of_chars (skipn i name) else ""
  | None => ""
  end.

Definition lower_char (c : ascii) : ascii :=
  let n := Str.code c in
  if ((65 <=? n) && (n <=? 90)
      || (192 <=? n) && (n <=? 222) && negb (n =? 215))%N
  then ascii_of_N (n + 32) else c.

Definition str_lower (s : string) : string :=
  Str.of_chars (map lower_char (Str.chars s)).

Definition guess_type (path : string) : option string * option string :=
  let ext := str_lower (path_suffix path) in
  if String.eqb ext ".py" then (Some "text/x-python", None)
  else if String.eqb ext ".json" then (Some "application/json", None)
  else if String.eqb ext ".csv" then (Some "text/csv", None)
  else if String.eqb ext ".txt" then (Some "text/plain", None)
  else (None, None).

Fixpoint pad_left (width : nat) (s : string) : string :=
  match width with
  | O => s
  | S n => if (String.length s <=? n)%nat then pad_left n ("0" ++ s) else s
  end.

Definition digits (width : nat) (z : Z) : string := pad_left width (decimal z).

(** Calendar date of a day number counted from 1970-01-01. *)
Definition civil_from_days (days : Z) : Z * Z * Z :=
  let z := days + 719468 in
  let era := z / 146097 in
  let doe := z - era * 146097 in
  let yoe := (doe - doe / 1460 + doe / 36524 - doe / 146096) / 365 in
  let doy := doe - (365 * yoe + yoe / 4 - yoe / 100) in
  let mp := (5 * doy + 2) / 153 in
  let d := doy - (153 * mp + 2) / 5 + 1 in
  let m := if mp <? 10 then mp + 3 else mp - 9 in
  let y := yoe + era * 400 + (if m <=? 2 then 1 else 0) in
  (y, m, d).

Definition fromtimestamp_isoformat (t : Q) : string :=
  let micros := round_half_even (t * 1000000) in
  let secs := micros / 1000000 in
  let us := micros mod 1000000 in
  let '(y, m, d) := civil_from_days (secs / 86400) in
  let rem := secs mod 86400 in
  digits 4 y ++ "-" ++ digits 2 m ++ "-" ++ digits 2 d ++ "T"
    ++ digits 2 (rem / 3600) ++ ":" ++ digits 2 (rem mod 3600 / 60) ++ ":"
    ++ digits 2 (rem mod 60)
    ++ (if us =? 0 then "" else "." ++ digits 6 us).

(** One admissible order of a set: first occurrences, in order. *)
Fixpoint list_of_set (names : list string) : list string :=
  match names with
  | [] => []
  | n :: rest =>
      n :: filter (fun m => negb (String.eqb m n)) (list_of_set rest)
  end.

(** The documents the examples parse. *)
Definition nested_document : string :=
  "{" ++ double_quote ++ "name" ++ double_quote ++ ": "
      ++ double_quote ++ "x" ++ double_quote ++ ", "
      ++ double_quote ++ "tags" ++ double_quote ++ ": [1, 2], "
      ++ double_quote ++ "nested" ++ double_quote ++ ": {"
      ++ double_quote ++ "a" ++ double_quote ++ ": {"
      ++ double_quote ++ "b" ++ double_quote ++ ": null}}}".

Definition nested_value : pyval :=
  PDict [ ("name", PStr "x");
          ("tags", PList [PInt 1; PInt 2]);
          ("nested", PDict [("a", PDict [("b", PNone)])]) ].

Definition truncated_document : string := "{" ++ double_quote ++ "name".

(** [json.loads] on the documents of the examples; the other texts are
    not used and are answered like the empty text. *)
Definition json_loads (text : string) : outcome pyval :=
  if String.eqb text nested_document then Ok nested_value
  else if String.eqb text "[1, 2, 3]" then Ok (PList [PInt 1; PInt 2; PInt 3])
  else if String.eqb text truncated_document
  then Raise "Unterminated string starting at: line 1 column 2 (char 1)"
  else Raise "Expecting value: line 1 column 1 (char 0)".

Definition rt : runtime :=
  MkRuntime decode_text json_loads guess_type path_name path_suffix
            str_lower fromtimestamp_isoformat list_of_set.

Definition regular (text : string) : file :=
  MkFile (N.of_nat (String.length text)) 1700000000 1700000000 (bytes_of text).

(** A directory with five files. *)
Definition files (path : string) : option file :=
  if String.eqb path "notes.py" then Some (regular comment_blank_code)
  else if String.eqb path "table.csv" then Some (regular three_rows)
  else if String.eqb path "data.json" then Some (regular nested_document)
  else if String.eqb path "broken.json" then Some (regular truncated_document)
  else if String.eqb path "ab.txt" then Some (regular "ab")
  else None.

(** Every other name is taken as the name of nothing; a name with a NUL
    is no name. *)
Definition os_error (path : string) : string :=
  if existsb (Ascii.eqb "000"%char) (Str.chars path)
  then "embedded null byte"
  else not_found_message path.

Definition world_at (now : string) : world := MkWorld files os_error now.

Definition w : world := world_at "2026-03-20T09:46:00.000000".

End Posix.

(** ** Notions used in the statements *)

(** The four byte ranges of the composite identifier, in the words of the
    specification: range [i] is the [i]-th run of [len(content) // 4]
    bytes. *)
Definition quarter (content : list byte) (i : nat) : list byte :=
  let q := (List.length content / 4)%nat in
  firstn q (skipn (i * q) content).

Definition group (content : list byte) (i : nat) : string :=
  Str.take 8 (hashlib.md5_hexdigest (quarter content i)).

Definition all_lower_hex (s : string) : bool :=
  forallb Hex.is_lower_hex (Str.chars s).

Definition units : list string := ["bytes"; "KB"; "MB"; "GB"; "TB"].

(** The byte count after [k] divisions by 1024. *)
Fixpoint divided (x : Q) (k : nat) : Q :=
  match k with
  | O => x
  | S k' => (divided (x / 1024) k')%Q
  end.

(** Index of the first unit at which the count is below 1024, the last
    unit when there is none. *)
Definition unit_index (n : Z) : nat :=
  if n <? 1024 then 0
  else if n <? 1024 ^ 2 then 1
  else if n <? 1024 ^ 3 then 2
  else if n <? 1024 ^ 4 then 3
  else 4.

(** The metadata of a file, as [_get_consciousness_metadata] builds it. *)
Definition metadata_entries (rt : runtime) (path : string) (f : file) : pydict :=
    [ ("name", PStr (path_name rt path));
      ("extension", PStr (str_lower rt (path_suffix rt path)));
      ("size_bytes", PInt (Z.of_N (st_size f)));
      ("size_human", PStr (_format_file_size (Z.of_N (st_size f))));
      ("created", PStr (fromtimestamp_isoformat rt (st_ctime f)));
      ("modified", PStr (fromtimestamp_isoformat rt (st_mtime f)));
      ("mime_type", opt_str (fst (guess_type rt path)));
      ("encoding", opt_str (snd (guess_type rt path)));
      ("consciousness_hash", PStr (hashlib.sha256_hexdigest (content f)));
      ("resonance_frequency", PInt (Z.of_nat (List.length (content f)) mod 432));
      ("path", PStr path);
      ("quadundrum_signature", PStr (_calculate_quadundrum_signature (content f))) ].

Definition metadata_of (rt : runtime) (path : string) (f : file) : pyval :=
  PDict (metadata_entries rt path f).

(** The events of the metadata extraction. *)
Definition metadata_events (path : string) : list io_event :=
  [EvStat path; EvOpen path "rb"; EvRead path].

(** The last four digits of the content hash, read in base 16. *)
Definition hash_tail (f : file) : Z :=
  match int_base16 (Str.take_last 4 (hashlib.sha256_hexdigest (content f))) with
  | Ok n => n
  | Raise _ => 0
  end.

(** The derived scalar in the words of the specification. *)
Definition derived_scalar (size_bytes tail resonance : Z) : Q :=
  (((size_bytes mod 320) # 320) + ((tail mod 432) # 432) + (resonance # 432)) / 3.

(** The derived scalar as the code computes it from the metadata. *)
Definition energy_of (f : file) : Q :=
  ((inject_Z (Z.of_N (st_size f) mod 320) / 320
    + inject_Z (hash_tail f mod 432) / 432
    + inject_Z (Z.of_nat (List.length (content f)) mod 432) / 432) / 3)%Q.

(** The summary after a parse error with message [msg]. *)
Definition failure_summary (msg : string) : pyval :=
  PDict [ ("internal_coherence", PBool false);
          ("structural_integrity", PInt 0);
          ("consciousness_depth", PInt 0);
          ("details", PDict []);
          ("error", PStr msg) ].

(** The results per position, given the structural summary. *)
Definition positions (info summary : pyval) : pydict :=
  [ ("outsight", PDict
       [ ("external_compatibility", PStr "high");
         ("market_relevance", PStr "significant");
         ("industry_standards", PStr "compliant");
         ("ecosystem_integration", PStr "excellent") ]);
    ("insight", summary);
    ("overview", PDict
       [ ("system_relationships", PDict []);
         ("pattern_recognition", PList []);
         ("consciousness_connections", PDict []);
         ("holistic_assessment", PStr "unified") ]);
    ("innerview", PDict
       [ ("quantum_signature", PStr "quantum_coherent");
         ("consciousness_resonance", PFloat (85 # 100));
         ("transcendent_patterns", PList [PStr "unity"; PStr "transcendence"]);
         ("unity_field_analysis", PStr "strong_unity_field") ]) ].

Definition enhanced (info summary : pyval) : pydict :=
  map (fun '(position, base) => (position, _apply_x2_processing base info))
      (positions info summary).

(** The report for an existing file whose structural summary is [summary]. *)
Definition report_of (rt : runtime) (w : world) (path level : string)
    (f : file) (summary : pyval) : pydict :=
  let info := metadata_of rt path f in
  let x2 := enhanced info summary in
  [ ("miracatech_metadata", info);
    ("quadundrum_analysis", PDict x2);
    ("consciousness_insights", _generate_consciousness_insights x2);
    ("picsees_vision", _generate_picsees_insights x2);
    ("huraus_action", _generate_huraus_recommendations x2);
    ("asur_wisdom", _generate_asur_transcendent_view x2);
    ("timestamp", PStr (now_isoformat w));
    ("consciousness_level", PStr level);
    ("spring_equinox_energy", PFloat (energy_of f)) ].

(** Number of keys of the top-level value of a document, 0 when it is not
    a mapping. *)
Definition key_count (data : pyval) : Z :=
  match data with
  | PDict entries => Z.of_nat (List.length entries)
  | _ => 0
  end.

(** Names of the types of the top-level values, in the order of the set. *)
Definition energy_types (rt : runtime) (data : pyval) : list pyval :=
  match data with
  | PDict entries => map PStr (list_of_set rt (map type_name (Dict.values entries)))
  | _ => []
  end.

(** Width of the first row and the first row itself, nothing when there is
    no row. *)
Definition column_count (rows : list (list string)) : Z :=
  match rows with row :: _ => Z.of_nat (List.length row) | [] => 0 end.

Definition header (rows : list (list string)) : list pyval :=
  match rows with row :: _ => map PStr row | [] => [] end.

(** A summary reports the three line counts. *)
Definition reports_line_counts (summary : pyval) (total nonblank comments : Z)
  : Prop :=
  exists entries details,
    summary = PDict entries
    /\ Dict.get "structural_integrity" entries = Some (PInt total)
    /\ Dict.get "details" entries = Some (PDict details)
    /\ Dict.get "total_expressions" details = Some (PInt total)
    /\ Dict.get "consciousness_lines" details = Some (PInt nonblank)
    /\ Dict.get "wisdom_comments" details = Some (PInt comments).

(** Number of newline characters of a text. *)
Definition newline_count (text : string) : nat :=
  List.length (filter (Ascii.eqb Str.newline) (Str.chars text)).

Definition text_events (path : string) : list io_event :=
  [EvOpen path "r"; EvRead path].

(** ** Further notions used in the statements *)

(** The extensions whose files the summarizer opens, and those it reads
    as lines of code. *)
Definition code_extensions : list string := [".py"; ".js"; ".sol"].
Definition parsed_extensions : list string := ".json" :: ".csv" :: code_extensions.

Definition is_parsed (extension : pyval) : bool :=
  existsb (eq_str extension) parsed_extensions.

(** Lines of a text that are not blank, and lines whose first character
    after the leading blanks is [#]. *)
Definition nonblank_count (text : string) : nat :=
  List.length (filter (fun line => Str.truthy (Str.strip line))
                 (Str.split Str.newline text)).

Definition comment_count (text : string) : nat :=
  List.length (filter (fun line => Str.startswith "#" (Str.strip line))
                 (Str.split Str.newline text)).

(** The ten digits. *)
Definition decimal_digits : list string :=
  ["0"; "1"; "2"; "3"; "4"; "5"; "6"; "7"; "8"; "9"].

(** The keys of a report and of the metadata, in order. *)
Definition report_keys : list string :=
  [ "miracatech_metadata"; "quadundrum_analysis"; "consciousness_insights";
    "picsees_vision"; "huraus_action"; "asur_wisdom"; "timestamp";
    "consciousness_level"; "spring_equinox_energy" ].

Definition metadata_keys : list string :=
  [ "name"; "extension"; "size_bytes"; "size_human"; "created"; "modified";
    "mime_type"; "encoding"; "consciousness_hash"; "resonance_frequency";
    "path"; "quadundrum_signature" ].



(** The summary of a text read as lines of code. *)
Definition code_summary (text : string) : pydict :=
  let total := PInt (Z.of_nat (S (newline_count text))) in
  [ ("internal_coherence", PBool true);
    ("structural_integrity", total);
    ("consciousness_depth", total);
    ("details", PDict
       [ ("consciousness_lines", PInt (Z.of_nat (nonblank_count text)));
         ("total_expressions", total);
         ("wisdom_comments", PInt (Z.of_nat (comment_count text))) ]) ].

(** A summary as the summarizer returns it when nothing was raised. *)
Definition coherent_summary (summary : pydict) : Prop :=
  exists integrity depth details : pyval,
    summary = [ ("internal_coherence", PBool true);
                ("structural_integrity", integrity);
                ("consciousness_depth", depth);
                ("details", details) ].

(** The calls on the file system of one analysis of an existing file. *)
Definition analysis_events (rt : runtime) (path : string) : list io_event :=
  ([EvExists path; EvStat path; EvOpen path "rb"; EvRead path]
   ++ if is_parsed (PStr (str_lower rt (path_suffix rt path)))
      then [EvOpen path "r"; EvRead path] else [])%list.

(** The envelope [_apply_x2_processing] puts around a result. *)
Definition envelope_of (base : pyval) : pyval :=
  PDict
    [ ("base_analysis", base);
      ("x2_creative", base);
      ("x2_logical", base);
      ("unified_synthesis",
        PDict [("primary_insight", PStr "Consciousness-tech synthesis achieved")]);
      ("consciousness_amplification", PFloat (25 # 10)) ].

Definition position_names : list string :=
  ["outsight"; "insight"; "overview"; "innerview"].

(** The insight lines of every report. *)
Definition insight_lines : list pyval :=
  [ PStr "Position outsight: Consciousness-tech synthesis achieved";
    PStr "Position insight: Consciousness-tech synthesis achieved";
    PStr "Position overview: Consciousness-tech synthesis achieved";
    PStr "Position innerview: Consciousness-tech synthesis achieved";
    PStr "File exhibits consciousness-tech resonance patterns";
    PStr "MIRACATECH processing reveals hidden synchronicities" ].

(** The methods [__init__] puts in [self.x2_processing] that the class
    does not define. *)
Definition undefined_methods : list string :=
  [ "_apply_creative_analysis"; "_apply_logical_analysis";
    "_apply_meta_creative"; "_apply_meta_logical" ].

(** * Properties *)

(** ** The models of the libraries on known inputs *)

Example md5_empty :
  hashlib.md5_hexdigest [] = "d41d8cd98f00b204e9800998ecf8427e".
Proof. vm_compute. reflexivity. Qed.

Example md5_abc :
  hashlib.md5_hexdigest (bytes_of "abc") = "900150983cd24fb0d6963f7d28e17f72".
Proof. vm_compute. reflexivity. Qed.

Example md5_two_blocks :
  hashlib.md5_hexdigest (repeat "x"%byte 119)
  = "ab347a5f68c8a443cfcddc633f12c24f".
Proof. vm_compute. reflexivity. Qed.

Example sha256_constants :
  last (hashlib.first_primes 64) 0 = 311
  /\ nth 0 hashlib.sha256_K 0 = 0x428a2f98
  /\ nth 63 hashlib.sha256_K 0 = 0xc67178f2
  /\ nth 0 hashlib.sha256_init 0 = 0x6a09e667.
Proof. vm_compute. repeat split; reflexivity. Qed.

Example sha256_empty :
  hashlib.sha256_hexdigest []
  = "e3b0c44298fc1c149afbf4c8996fb92427ae41e4649b934ca495991b7852b855".
Proof. vm_compute. reflexivity. Qed.

Example sha256_abc :
  hashlib.sha256_hexdigest (bytes_of "abc")
  = "ba7816bf8f01cfea414140de5dae2223b00361a396177a9cb410ff61f20015ad".
Proof. vm_compute. reflexivity. Qed.

Example sha256_two_blocks :
  hashlib.sha256_hexdigest (repeat "x"%byte 119)
  = "000b48d4edf0fa7bee3c6236ecd2785baa5db4eeb8bb54341b029e0d9fa5fb0c".
Proof. vm_compute. reflexivity. Qed.

(** A quoted field over two lines, a blank line, and a record left open
    at the end of the input. *)
Example csv_quoted_and_blank :
  csv.reader_rows
    ("a," ++ Posix.double_quote ++ "x" ++ LF ++ "y" ++ Posix.double_quote
       ++ ",z" ++ LF ++ LF ++ "b," ++ Posix.double_quote ++ "q")
  = Ok [["a"; "x" ++ LF ++ "y"; "z"]; []; ["b"; "q"]].
Proof. vm_compute. reflexivity. Qed.

Example csv_empty_text : csv.reader_rows "" = Ok [].
Proof. reflexivity. Qed.

Example format_ties_to_even : _format_file_size 1280 = "1.2 KB".
Proof. vm_compute. reflexivity. Qed.

Example format_past_the_last_unit : _format_file_size (2 ^ 50) = "1024.0 TB".
Proof. vm_compute. reflexivity. Qed.

Example format_beyond_exact_integers :
  round53 9007254230322381 = 9007254230322380
  /\ _format_file_size 9007254230322381 = "8192.0 TB"
  /\ _format_file_size (2 ^ 63 - 1) = "8388608.0 TB".
Proof. repeat split; vm_compute; reflexivity. Qed.

Example round53_ties_to_even :
  map round53 [2 ^ 53 + 1; 2 ^ 53 + 2; 2 ^ 53 + 3; - (2 ^ 53 + 1); 2 ^ 54 + 6]
  = [2 ^ 53; 2 ^ 53 + 2; 2 ^ 53 + 4; - 2 ^ 53; 2 ^ 54 + 8].
Proof. vm_compute. reflexivity. Qed.

Example repr_plain : py_repr "table.csv" = "'table.csv'".
Proof. reflexivity. Qed.

Example repr_single_quote :
  py_repr "it's.csv" = Posix.double_quote ++ "it's.csv" ++ Posix.double_quote.
Proof. reflexivity. Qed.

Example repr_both_quotes :
  py_repr ("it's " ++ Posix.double_quote ++ "x" ++ Posix.double_quote)
  = "'it\'s " ++ Posix.double_quote ++ "x" ++ Posix.double_quote ++ "'".
Proof. reflexivity. Qed.

Example repr_backslash_and_controls :
  py_repr ("a\b" ++ Str.of_chars ["009"; "000"; "127"; "160"; "233"]%char)
  = "'a\\b\t\x00\x7f\xa0" ++ Str.of_chars ["233"%char] ++ "'".
Proof. reflexivity. Qed.

Example isoformat_epoch : Posix.fromtimestamp_isoformat 0 = "1970-01-01T00:00:00".
Proof. vm_compute. reflexivity. Qed.

(** [MIRACATECHFileAnalyzer()] raises: [__init__] looks up four methods
    the class does not define.  The methods below are therefore stated on
    an instance whose [quadundrum_frameworks] is the table [__init__]
    assigns first. *)
Remark constructor_raises :
  __init__
  = Raise "'MIRACATECHFileAnalyzer' object has no attribute '_apply_creative_analysis'".
Proof. vm_compute. reflexivity. Qed.

(** ** Strings, digits and digests *)

Lemma chars_of_chars (l : list ascii) : Str.chars (Str.of_chars l) = l.
Proof. apply list_ascii_of_string_of_list_ascii. Qed.

Lemma of_chars_chars (s : string) : Str.of_chars (Str.chars s) = s.
Proof. apply string_of_list_ascii_of_string. Qed.

Lemma length_of_chars (l : list ascii) :
  String.length (Str.of_chars l) = List.length l.
Proof. induction l as [|c l IH]; simpl; [reflexivity | now rewrite IH]. Qed.

Lemma length_chars (s : string) : List.length (Str.chars s) = String.length s.
Proof. rewrite <- (of_chars_chars s) at 2. now rewrite length_of_chars. Qed.

Lemma join4 (sep a b c d : string) :
  Str.join sep [a; b; c; d] = a ++ sep ++ b ++ sep ++ c ++ sep ++ d.
Proof. reflexivity. Qed.

Lemma split_length (text : string) :
  List.length (Str.split Str.newline text) = S (newline_count text).
Proof.
  unfold newline_count. induction text as [|c text IH]; [reflexivity|].
  cbn [Str.split Str.chars list_ascii_of_string filter].
  rewrite (Ascii.eqb_sym Str.newline c).
  destruct (Ascii.eqb c Str.newline).
  - cbn [List.length]. now rewrite IH.
  - fold (Str.chars text).
    destruct (Str.split Str.newline text) as [|x xs];
      [discriminate IH | exact IH].
Qed.

Lemma digit_is_lower_hex (n : N) : Hex.is_lower_hex (Hex.digit n) = true.
Proof.
  destruct n as [|p]; [reflexivity|].
  do 4 (destruct p as [p|p|]; try reflexivity).
Qed.

Lemma of_bytes_length (bs : list Z) :
  String.length (Hex.of_bytes bs) = (2 * List.length bs)%nat.
Proof.
  unfold Hex.of_bytes. rewrite length_of_chars.
  induction bs as [|b bs IH]; simpl; [reflexivity | rewrite IH; lia].
Qed.

Lemma of_bytes_lower_hex (bs : list Z) : all_lower_hex (Hex.of_bytes bs) = true.
Proof.
  unfold all_lower_hex, Hex.of_bytes. rewrite chars_of_chars.
  induction bs as [|b bs IH]; simpl; [reflexivity|].
  now rewrite !digit_is_lower_hex, IH.
Qed.

Lemma lower_hex_value (c : ascii) :
  Hex.is_lower_hex c = true -> exists d, Hex.value c = Some d /\ 0 <= d < 16.
Proof.
  unfold Hex.is_lower_hex, Hex.value.
  set (n := Z.of_N (N_of_ascii c)). intros H.
  destruct ((48 <=? n) && (n <=? 57)) eqn:D.
  - exists (n - 48). split; [reflexivity|].
    apply andb_true_iff in D as [D1 D2]. lia.
  - rewrite orb_false_l in H. rewrite H. exists (n - 87). split; [reflexivity|].
    apply andb_true_iff in H as [H1 H2]. lia.
Qed.

Lemma hex_fold (cs : list ascii) (n : Z) :
  forallb Hex.is_lower_hex cs = true -> 0 <= n ->
  exists m, fold_left hex_step cs (Some n) = Some m /\ 0 <= m.
Proof.
  revert n; induction cs as [|c cs IH]; intros n H Hn; cbn [fold_left].
  - exists n. now split.
  - cbn [forallb] in H. apply andb_true_iff in H as [Hc Hcs].
    destruct (lower_hex_value c Hc) as (d & Hv & Hd).
    unfold hex_step at 2. rewrite Hv.
    apply IH; [exact Hcs | lia].
Qed.

Lemma int_base16_lower_hex (s : string) :
  all_lower_hex s = true -> s <> "" ->
  exists n, int_base16 s = Ok n /\ 0 <= n.
Proof.
  intros H Hs. unfold int_base16.
  destruct s as [|c s]; [congruence|].
  destruct (hex_fold (Str.chars (String c s)) 0 H (Z.le_refl 0)) as (m & E & Hm).
  rewrite E. now exists m.
Qed.

Section DigestFacts.

Import hashlib.

Lemma le_bytes_length (k : nat) (x : Z) : List.length (le_bytes k x) = k.
Proof.
  revert x; induction k as [|k IH]; intros x; simpl;
    [reflexivity | now rewrite IH].
Qed.

Lemma md5_digest_length (content : list byte) :
  List.length (md5_digest content) = 16%nat.
Proof. unfold md5_digest. now rewrite !length_app, !le_bytes_length. Qed.

Lemma sha256_block_length (h blk : list Z) :
  List.length (sha256_block h blk) = 8%nat.
Proof. unfold sha256_block. now rewrite length_map, length_combine. Qed.

Lemma sha256_state_length (blks : list (list Z)) (h : list Z) :
  List.length h = 8%nat ->
  List.length (fold_left sha256_block blks h) = 8%nat.
Proof.
  revert h; induction blks as [|blk blks IH]; intros h Hh; simpl; [exact Hh|].
  apply IH, sha256_block_length.
Qed.

Lemma flat_map_be_bytes_length (h : list Z) :
  List.length (flat_map (be_bytes 4) h) = (4 * List.length h)%nat.
Proof.
  induction h as [|x h IH]; [reflexivity|].
  cbn [flat_map]. rewrite length_app, IH.
  unfold be_bytes. rewrite length_rev, le_bytes_length. simpl; lia.
Qed.

Lemma sha256_digest_length (content : list byte) :
  List.length (sha256_digest content) = 32%nat.
Proof.
  unfold sha256_digest. rewrite flat_map_be_bytes_length.
  now rewrite sha256_state_length.
Qed.

Lemma md5_hexdigest_length (content : list byte) :
  String.length (md5_hexdigest content) = 32%nat.
Proof. unfold md5_hexdigest. now rewrite of_bytes_length, md5_digest_length. Qed.

Lemma sha256_hexdigest_length (content : list byte) :
  String.length (sha256_hexdigest content) = 64%nat.
Proof.
  unfold sha256_hexdigest. now rewrite of_bytes_length, sha256_digest_length.
Qed.

Lemma md5_hexdigest_lower_hex (content : list byte) :
  all_lower_hex (md5_hexdigest content) = true.
Proof. apply of_bytes_lower_hex. Qed.

Lemma sha256_hexdigest_lower_hex (content : list byte) :
  all_lower_hex (sha256_hexdigest content) = true.
Proof. apply of_bytes_lower_hex. Qed.

End DigestFacts.

(** ** Slices *)

Lemma forallb_firstn {A : Type} (p : A -> bool) (n : nat) (l : list A) :
  forallb p l = true -> forallb p (firstn n l) = true.
Proof.
  revert n; induction l as [|x l IH]; intros [|n] H; simpl in *; try reflexivity.
  apply andb_true_iff in H as [Hx Hl]. now rewrite Hx, IH.
Qed.

Lemma forallb_skipn {A : Type} (p : A -> bool) (n : nat) (l : list A) :
  forallb p l = true -> forallb p (skipn n l) = true.
Proof.
  revert n; induction l as [|x l IH]; intros [|n] H; simpl in *; try reflexivity.
  - exact H.
  - apply andb_true_iff in H as [_ Hl]. now apply IH.
Qed.

Lemma take_length (n : nat) (s : string) :
  (n <= String.length s)%nat -> String.length (Str.take n s) = n.
Proof.
  intros H. unfold Str.take.
  rewrite length_of_chars, length_firstn, length_chars. lia.
Qed.

Lemma take_lower_hex (n : nat) (s : string) :
  all_lower_hex s = true -> all_lower_hex (Str.take n s) = true.
Proof.
  unfold all_lower_hex, Str.take. intros H.
  rewrite chars_of_chars. now apply forallb_firstn.
Qed.

Lemma slice_quarter (content : list byte) (i : nat) :
  slice (i * (List.length content / 4)) ((i + 1) * (List.length content / 4)) content
  = quarter content i.
Proof. unfold slice, quarter. f_equal. lia. Qed.

Lemma firstn_add {A : Type} (a b : nat) (l : list A) :
  firstn (a + b) l = (firstn a l ++ firstn b (skipn a l))%list.
Proof.
  revert l; induction a as [|a IH]; intros l; [reflexivity|].
  destruct l as [|x l]; simpl; [now rewrite firstn_nil | now rewrite IH].
Qed.

Lemma quarters_cover (content : list byte) :
  (quarter content 0 ++ quarter content 1 ++ quarter content 2 ++ quarter content 3)%list
  = firstn (4 * (List.length content / 4)) content.
Proof.
  unfold quarter. set (q := (List.length content / 4)%nat).
  replace (4 * q)%nat with (q + (q + (q + q)))%nat by lia.
  rewrite !firstn_add, !skipn_skipn.
  replace (0 * q)%nat with 0%nat by lia.
  replace (1 * q)%nat with q by lia.
  replace (2 * q)%nat with (q + q)%nat by lia.
  replace (3 * q)%nat with (q + (q + q))%nat by lia.
  reflexivity.
Qed.

(** ** The composite identifier *)

(** C3.  For every content (empty, shorter than four bytes or longer)
    the composite identifier is the MD5 digests of four byte ranges, cut
    to their first 8 hexadecimal digits and joined by [-].  The ranges are
    consecutive runs of [len(content) // 4] bytes from the start of the
    content, so the bytes after the fourth run are in none of them.  Each
    of the four groups has exactly 8 characters, all of them in [0-9a-f].
    The digest differs from the SHA-256 digest used for the content hash on
    every input. *)
Theorem quadundrum_signature_shape (content : list byte) :
  _calculate_quadundrum_signature content
  = group content 0 ++ "-" ++ group content 1 ++ "-"
      ++ group content 2 ++ "-" ++ group content 3
  /\ (forall i : nat,
        String.length (group content i) = 8%nat
        /\ all_lower_hex (group content i) = true)
  /\ (quarter content 0 ++ quarter content 1
        ++ quarter content 2 ++ quarter content 3)%list
     = firstn (4 * (List.length content / 4)) content
  /\ (forall data : list byte,
        hashlib.md5_hexdigest data <> hashlib.sha256_hexdigest data).
Proof.
  split; [|split; [|split]].
  - unfold _calculate_quadundrum_signature.
    cbn [seq fold_left app].
    rewrite !slice_quarter. apply join4.
  - intros i. unfold group. split.
    + apply take_length. rewrite md5_hexdigest_length. lia.
    + apply take_lower_hex, md5_hexdigest_lower_hex.
  - apply quarters_cover.
  - intros data E.
    pose proof (md5_hexdigest_length data) as H1.
    pose proof (sha256_hexdigest_length data) as H2.
    rewrite E in H1. congruence.
Qed.

(** C10.  When the content has 1, 2 or 3 bytes, all four byte ranges are
    empty and the composite identifier is four times the first 8 digits of
    the MD5 digest of the empty input, [d41d8cd9-d41d8cd9-d41d8cd9-d41d8cd9],
    whatever the bytes are; two such contents always get the same
    identifier. *)
Theorem short_content_signature_constant (content : list byte) :
  (1 <= List.length content <= 3)%nat ->
  (forall i : nat, quarter content i = [])
  /\ _calculate_quadundrum_signature content
     = Str.join "-" (repeat (Str.take 8 (hashlib.md5_hexdigest [])) 4)
  /\ _calculate_quadundrum_signature content
     = "d41d8cd9-d41d8cd9-d41d8cd9-d41d8cd9"
  /\ (forall other : list byte,
        (1 <= List.length other <= 3)%nat ->
        _calculate_quadundrum_signature other
        = _calculate_quadundrum_signature content).
Proof.
  assert (K : forall c : list byte,
             (1 <= List.length c <= 3)%nat ->
             _calculate_quadundrum_signature c
             = "d41d8cd9-d41d8cd9-d41d8cd9-d41d8cd9").
  { intros c Hc.
    destruct c as [|b1 [|b2 [|b3 [|b4 c]]]]; simpl in Hc; try lia;
      vm_compute; reflexivity. }
  intros H. split; [|split; [|split]].
  - intros i. unfold quarter.
    replace (List.length content / 4)%nat with 0%nat; [reflexivity|].
    symmetry. apply Nat.div_small. lia.
  - rewrite (K content H). vm_compute. reflexivity.
  - exact (K content H).
  - intros other Ho. now rewrite (K other Ho), (K content H).
Qed.

Lemma short_content_signature_constant_witness :
  (1 <= List.length (bytes_of "ab") <= 3)%nat
  /\ _calculate_quadundrum_signature (bytes_of "ab")
     = "d41d8cd9-d41d8cd9-d41d8cd9-d41d8cd9"
  /\ _calculate_quadundrum_signature (bytes_of "xyz")
     = _calculate_quadundrum_signature (bytes_of "ab").
Proof.
  assert (H : (1 <= List.length (bytes_of "ab") <= 3)%nat) by (simpl; lia).
  destruct (short_content_signature_constant (bytes_of "ab") H) as (_ & _ & E & S).
  split; [exact H | split; [exact E | apply S; simpl; lia]].
Defined.

(** ** The human-readable size *)

Lemma Qltb_lt (x y : Q) : Qltb x y = true <-> (x < y)%Q.
Proof.
  unfold Qltb. rewrite negb_true_iff, <- not_true_iff_false, Qle_bool_iff.
  split; [apply Qnot_le_lt | apply Qlt_not_le].
Qed.

Lemma Qltb_ge (x y : Q) : Qltb x y = false <-> (y <= x)%Q.
Proof. unfold Qltb. rewrite negb_false_iff. apply Qle_bool_iff. Qed.

Lemma divided_below (n : Z) (k : nat) :
  (k <= 4)%nat ->
  (divided (inject_Z n) k < 1024)%Q <-> n < 1024 ^ (Z.of_nat k + 1).
Proof.
  intros Hk.
  do 5 (destruct k as [|k]; [unfold Qlt; cbn; lia|]). lia.
Qed.

Lemma format_size_loop_step (unit : string) (rest : list string) (x : Q) :
  format_size_loop (unit :: rest) x
  = if Qltb x 1024 then format_1f x ++ " " ++ unit
    else format_size_loop rest (x / 1024)%Q.
Proof. reflexivity. Qed.

Lemma Qabs_idem (x : Q) : Qabs (Qabs x) = Qabs x.
Proof. destruct x as [n d]. simpl. now rewrite Z.abs_idemp. Qed.

Lemma round_half_even_near (q : Q) :
  (Qabs (q - inject_Z (round_half_even q)) <= 1 # 2)%Q.
Proof.
  unfold round_half_even.
  pose proof (Qfloor_le q) as Hlo.
  pose proof (Qlt_floor q) as Hhi.
  set (f := Qfloor q) in *.
  assert (Hf1 : (inject_Z (f + 1) == inject_Z f + 1)%Q)
    by (rewrite inject_Z_plus; reflexivity).
  apply Qabs_Qle_condition.
  destruct (q - inject_Z f ?= 1 # 2)%Q eqn:C.
  - apply Qeq_alt in C. destruct (Z.even f); [lra | rewrite Hf1; lra].
  - apply Qlt_alt in C. lra.
  - apply Qgt_alt in C. rewrite Hf1. lra.
Qed.

Lemma round53_small (n : Z) : 0 <= n < 2 ^ 53 -> round53 n = n.
Proof.
  intros H. unfold round53.
  destruct (Z.ltb_spec (Z.abs n) (2 ^ 53)) as [_|L]; [reflexivity | lia].
Qed.

(** C8.  For a byte count below 2^53 (those a float holds exactly),
    [_format_file_size] divides the count by 1024 once per unit passed,
    along bytes, KB, MB, GB, TB, and prints the quotient with one digit
    after the point (the nearest tenth) followed by the unit.  The unit is
    the first one at which the quotient is below 1024, and TB when there is
    none.  It prints [0.0 bytes] for 0 and [1.5 KB] for 1536. *)
Theorem format_file_size_units (n : Z) :
  0 <= n < 2 ^ 53 ->
  let k := unit_index n in
  _format_file_size n
  = format_1f (divided (inject_Z n) k) ++ " " ++ nth k units ""
  /\ ((k < 4)%nat -> (divided (inject_Z n) k < 1024)%Q)
  /\ (forall j : nat, (j < k)%nat -> (1024 <= divided (inject_Z n) j)%Q)
  /\ (forall x : Q,
        exists tenths : Z,
          format_1f (Qabs x)
          = decimal (tenths / 10) ++ "." ++ decimal (tenths mod 10)
          /\ (Qabs (Qabs x * 10 - inject_Z tenths) <= 1 # 2)%Q)
  /\ _format_file_size 0 = "0.0 bytes"
  /\ _format_file_size 1536 = "1.5 KB".
Proof.
  intros Hn. cbv zeta.
  assert (B : forall j : nat, (j <= 4)%nat ->
                Qltb (divided (inject_Z n) j) 1024 = (n <? 1024 ^ (Z.of_nat j + 1))).
  { intros j Hj. apply eq_true_iff_eq.
    now rewrite Qltb_lt, Z.ltb_lt, divided_below. }
  split; [|split; [|split; [|split; [|split]]]].
  - unfold _format_file_size, float_of_int. rewrite (round53_small n Hn).
    rewrite !format_size_loop_step.
    change (inject_Z n) with (divided (inject_Z n) 0) at 1.
    change (inject_Z n / 1024)%Q with (divided (inject_Z n) 1).
    change (divided (inject_Z n) 1 / 1024)%Q with (divided (inject_Z n) 2).
    change (divided (inject_Z n) 2 / 1024)%Q with (divided (inject_Z n) 3).
    change (divided (inject_Z n) 3 / 1024)%Q with (divided (inject_Z n) 4).
    rewrite !B by lia. unfold unit_index.
    change (1024 ^ (Z.of_nat 0 + 1)) with 1024.
    change (Z.of_nat 1 + 1) with 2. change (Z.of_nat 2 + 1) with 3.
    change (Z.of_nat 3 + 1) with 4.
    destruct (n <? 1024); [reflexivity|].
    destruct (n <? 1024 ^ 2); [reflexivity|].
    destruct (n <? 1024 ^ 3); [reflexivity|].
    destruct (n <? 1024 ^ 4); reflexivity.
  - intros Hk. apply divided_below; [lia|]. revert Hk. unfold unit_index.
    repeat match goal with
           | |- context [?a <? ?b] => destruct (Z.ltb_spec a b)
           end; cbn; lia.
  - intros j Hj. apply Qltb_ge. rewrite B.
    + apply Z.ltb_ge. revert Hj. unfold unit_index.
      repeat match goal with
             | |- context [?a <? ?b] => destruct (Z.ltb_spec a b)
             end; intros Hj; try lia;
        do 4 (destruct j as [|j]; [cbn; lia|]); lia.
    + revert Hj. unfold unit_index.
      repeat match goal with
             | |- context [?a <? ?b] => destruct (Z.ltb_spec a b)
             end; lia.
  - intros x. exists (round_half_even (Qabs x * 10)). split.
    + unfold format_1f.
      replace (Qltb (Qabs x) 0) with false.
      * now rewrite Qabs_idem.
      * symmetry. apply Qltb_ge, Qabs_nonneg.
    + apply round_half_even_near.
  - vm_compute. reflexivity.
  - vm_compute. reflexivity.
Qed.

Lemma format_file_size_units_witness :
  _format_file_size 1536 = "1.5 KB"
  /\ (divided (inject_Z 1536) 1 < 1024)%Q
  /\ (1024 <= divided (inject_Z 1536) 0)%Q.
Proof.
  assert (H : 0 <= 1536 < 2 ^ 53) by (split; [lia | reflexivity]).
  destruct (format_file_size_units 1536 H) as (E & A & B & _).
  split; [|split].
  - rewrite E. vm_compute. reflexivity.
  - apply A. vm_compute. lia.
  - apply (B 0%nat). vm_compute. lia.
Defined.

(** ** Running the commands *)

Section RunLemmas.

Variable rt : runtime.
Variable w : world.

Lemma bind_ok {A B : Type} (m : io A) (k : A -> io B)
    (tr tr' : list io_event) (a : A) :
  m tr = (Ok a, tr') -> bind m k tr = k a tr'.
Proof. intros H. unfold bind. now rewrite H. Qed.

Lemma bind_raise {A B : Type} (m : io A) (k : A -> io B)
    (tr tr' : list io_event) (msg : string) :
  m tr = (Raise msg, tr') -> bind m k tr = (Raise msg, tr').
Proof. intros H. unfold bind. now rewrite H. Qed.

Lemma try_except_ok {A : Type} (body : io A) (handler : string -> io A)
    (tr tr' : list io_event) (a : A) :
  body tr = (Ok a, tr') -> try_except body handler tr = (Ok a, tr').
Proof. intros H. unfold try_except. now rewrite H. Qed.

Lemma open_run (path mode : string) (f : file) (tr : list io_event) :
  fs w path = Some f ->
  open w path mode tr = (Ok f, (tr ++ [EvOpen path mode])%list).
Proof. intros Hf. unfold open, bind, emit, ret. now rewrite Hf. Qed.

Lemma read_text_run (path : string) (f : file) (tr : list io_event) :
  read_text rt path f tr
  = (decode_text rt (content f), (tr ++ [EvRead path])%list).
Proof. reflexivity. Qed.

(** Opening an existing file and reading its text. *)
Lemma text_run {A : Type} (path : string) (f : file) (text : string)
    (k : string -> io A) (tr : list io_event) :
  fs w path = Some f ->
  decode_text rt (content f) = Ok text ->
  (f' <- open w path "r" ;; text' <- read_text rt path f' ;; k text') tr
  = k text (tr ++ text_events path)%list.
Proof.
  intros Hf Hd.
  erewrite bind_ok; [| apply open_run; exact Hf].
  erewrite bind_ok; [| rewrite read_text_run, Hd; reflexivity].
  unfold text_events. now rewrite <- app_assoc.
Qed.

Lemma metadata_run (path : string) (f : file) (tr : list io_event) :
  fs w path = Some f ->
  _get_consciousness_metadata rt w path tr
  = (Ok (metadata_of rt path f), (tr ++ metadata_events path)%list).
Proof.
  intros Hf.
  unfold _get_consciousness_metadata, os_stat, open, read_bytes, metadata_of,
    metadata_entries, metadata_events, bind, emit, ret.
  rewrite Hf. destruct (guess_type rt path) as [mime enc].
  cbn [fst snd]. now rewrite <- !app_assoc.
Qed.

Lemma hash_tail_parses (f : file) :
  int_base16 (Str.take_last 4 (hashlib.sha256_hexdigest (content f)))
  = Ok (hash_tail f)
  /\ 0 <= hash_tail f.
Proof.
  unfold hash_tail.
  set (h := hashlib.sha256_hexdigest (content f)).
  destruct (int_base16_lower_hex (Str.take_last 4 h)) as (n & -> & Hn).
  - unfold all_lower_hex, Str.take_last. rewrite chars_of_chars.
    apply forallb_skipn, sha256_hexdigest_lower_hex.
  - intros E. apply (f_equal String.length) in E.
    unfold Str.take_last in E.
    rewrite length_of_chars, length_skipn, length_chars in E.
    unfold h in E. rewrite sha256_hexdigest_length in E. discriminate E.
  - now split.
Qed.

Lemma equinox_run (path : string) (f : file) (tr : list io_event) :
  _calculate_equinox_resonance (metadata_of rt path f) tr
  = (Ok (PFloat (energy_of f)), tr).
Proof.
  unfold _calculate_equinox_resonance, metadata_of, metadata_entries.
  cbv beta iota zeta
    delta [bind ret lift as_int as_str getitem Dict.get String.eqb Ascii.eqb Bool.eqb].
  destruct (hash_tail_parses f) as [-> _]. reflexivity.
Qed.

Lemma metadata_extension (path : string) (f : file) :
  Dict.get "extension" (metadata_entries rt path f)
  = Some (PStr (str_lower rt (path_suffix rt path))).
Proof. reflexivity. Qed.

Lemma insight_success (path : string) (info r : pydict) (ext : pyval)
    (tr tr' : list io_event) :
  Dict.get "extension" info = Some ext ->
  structure_try rt w path ext initial_result tr = (Ok r, tr') ->
  _analyze_internal_structure rt w path (PDict info) tr = (Ok (PDict r), tr').
Proof.
  intros He Hr. unfold _analyze_internal_structure, getitem.
  rewrite He. unfold bind at 1, ret at 1, bind, try_except. now rewrite Hr.
Qed.

Lemma insight_failure (path : string) (info : pydict) (ext : pyval)
    (msg : string) (tr tr' : list io_event) :
  Dict.get "extension" info = Some ext ->
  structure_try rt w path ext initial_result tr = (Raise msg, tr') ->
  _analyze_internal_structure rt w path (PDict info) tr
  = (Ok (failure_summary msg), tr').
Proof.
  intros He Hr. unfold _analyze_internal_structure, getitem.
  rewrite He. unfold bind at 1, ret at 1, bind, try_except. now rewrite Hr.
Qed.

Lemma insight_total (path : string) (info : pydict) (ext : pyval)
    (tr : list io_event) :
  Dict.get "extension" info = Some ext ->
  exists summary tr',
    _analyze_internal_structure rt w path (PDict info) tr
    = (Ok (PDict summary), tr').
Proof.
  intros He.
  destruct (structure_try rt w path ext initial_result tr) as [[r|msg] tr'] eqn:Hr.
  - exists r, tr'. now apply insight_success with ext.
  - pose proof (insight_failure path info ext msg tr tr' He Hr) as H.
    unfold failure_summary in H. eexists _, tr'. exact H.
Qed.

Lemma analyze_missing (path level : string) :
  fs w path = None ->
  run (analyze_file_miracatech rt w path level)
  = (Ok (PDict [("error", PStr "File not found"); ("status", PStr "failed")]),
     [EvExists path]).
Proof.
  intros Hf. unfold run, analyze_file_miracatech, os_path_exists, bind, emit, ret.
  now rewrite Hf.
Qed.

(** The loop over the four positions. *)
Lemma positions_run (path : string) (info summary : pyval)
    (tr tr' : list io_event) :
  _analyze_internal_structure rt w path info tr = (Ok summary, tr') ->
  for_each (quadundrum_frameworks rt w)
    (fun (quadundrum_results : pydict) '(position, analyzer) =>
       try_except
         (r <- analyzer path info ;;
          ret (Dict.set position r quadundrum_results))
         (fun e => ret (Dict.set position (position_failed e) quadundrum_results)))
    [] tr
  = (Ok (positions info summary), tr').
Proof.
  intros Hs. unfold quadundrum_frameworks. cbn [for_each].
  erewrite bind_ok; [| apply try_except_ok; reflexivity].
  erewrite bind_ok;
    [| apply try_except_ok; erewrite bind_ok; [reflexivity | exact Hs]].
  erewrite bind_ok; [| apply try_except_ok; reflexivity].
  erewrite bind_ok; [| apply try_except_ok; reflexivity].
  reflexivity.
Qed.

Lemma analyze_existing (path level : string) (f : file) (summary : pyval)
    (tr : list io_event) :
  fs w path = Some f ->
  _analyze_internal_structure rt w path (metadata_of rt path f)
    (EvExists path :: metadata_events path) = (Ok summary, tr) ->
  run (analyze_file_miracatech rt w path level)
  = (Ok (PDict (report_of rt w path level f summary)), tr).
Proof.
  intros Hf Hs. unfold run, analyze_file_miracatech.
  erewrite bind_ok;
    [| unfold os_path_exists, bind, emit, ret; rewrite Hf; reflexivity].
  cbn [negb app].
  erewrite bind_ok; [| apply metadata_run; exact Hf].
  cbn [app].
  erewrite bind_ok; [| apply positions_run; exact Hs].
  erewrite bind_ok; [| apply equinox_run].
  reflexivity.
Qed.

Lemma existing_file_report (path level : string) (f : file) :
  fs w path = Some f ->
  exists summary : pydict,
    exists tr : list io_event,
      _analyze_internal_structure rt w path (metadata_of rt path f)
        (EvExists path :: metadata_events path) = (Ok (PDict summary), tr)
      /\ run (analyze_file_miracatech rt w path level)
         = (Ok (PDict (report_of rt w path level f (PDict summary))), tr).
Proof.
  intros Hf.
  destruct (insight_total path (metadata_entries rt path f) _
              (EvExists path :: metadata_events path)
              (metadata_extension path f))
    as (summary & tr & Hs).
  exists summary, tr. split; [exact Hs|].
  now apply analyze_existing.
Qed.

End RunLemmas.

Lemma get_set_other (k k' : string) (v : pyval) (d : pydict) :
  k <> k' -> Dict.get k (Dict.set k' v d) = Dict.get k d.
Proof.
  intros Hk. induction d as [|[k0 v0] d IH]; cbn [Dict.set Dict.get].
  - destruct (String.eqb_spec k' k); [congruence | reflexivity].
  - destruct (String.eqb_spec k0 k') as [->|Hne]; cbn [Dict.get].
    + destruct (String.eqb_spec k' k); [congruence | reflexivity].
    + now rewrite IH.
Qed.

Lemma energy_matches_formula (f : file) :
  (energy_of f
   == derived_scalar (Z.of_N (st_size f)) (hash_tail f)
        (Z.of_nat (List.length (content f)) mod 432))%Q.
Proof.
  unfold energy_of, derived_scalar.
  generalize (Z.of_N (st_size f) mod 320) (hash_tail f mod 432)
             (Z.of_nat (List.length (content f)) mod 432).
  intros a b c. unfold Qeq, Qdiv, Qmult, Qplus, Qinv, inject_Z. cbn. lia.
Qed.

Lemma derived_scalar_range (size_bytes tail len : Z) :
  (0 <= derived_scalar size_bytes tail (len mod 432)
   /\ derived_scalar size_bytes tail (len mod 432) <= 998 # 1000)%Q.
Proof.
  unfold derived_scalar.
  pose proof (Z.mod_pos_bound size_bytes 320 ltac:(lia)) as Ha.
  pose proof (Z.mod_pos_bound tail 432 ltac:(lia)) as Hb.
  pose proof (Z.mod_pos_bound len 432 ltac:(lia)) as Hc.
  revert Ha Hb Hc.
  generalize (size_bytes mod 320) (tail mod 432) (len mod 432).
  intros a b c Ha Hb Hc.
  unfold Qle, Qlt, Qdiv, Qmult, Qplus, Qinv. cbn. split; nia.
Qed.

(** ** The entry point *)

(** C2.  When the path does not exist, [analyze_file_miracatech] returns
    the dict with the two entries [error: File not found] and
    [status: failed]; it does not raise, and the only call it makes on the
    file system is the existence check: no [os.stat], no [open], no read. *)
Theorem missing_path_returns_not_found
    (rt : runtime) (w : world) (path level : string) :
  fs w path = None ->
  run (analyze_file_miracatech rt w path level)
  = (Ok (PDict [("error", PStr "File not found"); ("status", PStr "failed")]),
     [EvExists path]).
Proof. apply analyze_missing. Qed.

Lemma missing_path_returns_not_found_witness :
  fs Posix.w "nothing" = None
  /\ run (analyze_file_miracatech Posix.rt Posix.w "nothing" "full")
     = (Ok (PDict [("error", PStr "File not found"); ("status", PStr "failed")]),
        [EvExists "nothing"]).
Proof.
  split; [reflexivity|].
  apply missing_path_returns_not_found. reflexivity.
Defined.

(** C9.  For an existing file and two tags, at the same clock reading,
    both calls return a report and make the same calls on the file system.
    Each report carries its tag under [consciousness_level]; the second
    report is the first one with that entry replaced, so the reports have
    the same keys and agree on every other key.  No tag makes the call
    raise. *)
Theorem tag_changes_only_its_field
    (rt : runtime) (w : world) (path : string) (f : file) (tag1 tag2 : string) :
  fs w path = Some f ->
  exists (report1 report2 : pydict) (tr : list io_event),
    run (analyze_file_miracatech rt w path tag1) = (Ok (PDict report1), tr)
    /\ run (analyze_file_miracatech rt w path tag2) = (Ok (PDict report2), tr)
    /\ Dict.get "consciousness_level" report1 = Some (PStr tag1)
    /\ Dict.get "consciousness_level" report2 = Some (PStr tag2)
    /\ report2 = Dict.set "consciousness_level" (PStr tag2) report1
    /\ Dict.keys report1 = Dict.keys report2
    /\ (forall key : string,
          key <> "consciousness_level" ->
          Dict.get key report1 = Dict.get key report2).
Proof.
  intros Hf.
  destruct (existing_file_report rt w path tag1 f Hf) as (summary & tr & Hs & H1).
  pose proof (analyze_existing rt w path tag2 f (PDict summary) tr Hf Hs) as H2.
  exists (report_of rt w path tag1 f (PDict summary)),
         (report_of rt w path tag2 f (PDict summary)), tr.
  assert (E : report_of rt w path tag2 f (PDict summary)
              = Dict.set "consciousness_level" (PStr tag2)
                  (report_of rt w path tag1 f (PDict summary)))
    by reflexivity.
  repeat split; try assumption; try reflexivity.
  intros key Hk. rewrite E. symmetry. now apply get_set_other.
Qed.

Lemma tag_changes_only_its_field_witness :
  exists (report1 report2 : pydict) (tr : list io_event),
    run (analyze_file_miracatech Posix.rt Posix.w "notes.py" "quick")
    = (Ok (PDict report1), tr)
    /\ run (analyze_file_miracatech Posix.rt Posix.w "notes.py" "no such level")
       = (Ok (PDict report2), tr)
    /\ Dict.get "consciousness_level" report1 = Some (PStr "quick")
    /\ Dict.get "consciousness_level" report2 = Some (PStr "no such level")
    /\ report2 = Dict.set "consciousness_level" (PStr "no such level") report1
    /\ Dict.keys report1 = Dict.keys report2
    /\ (forall key : string,
          key <> "consciousness_level" ->
          Dict.get key report1 = Dict.get key report2).
Proof.
  apply (tag_changes_only_its_field Posix.rt Posix.w "notes.py"
           (Posix.regular comment_blank_code)).
  reflexivity.
Defined.

(** C5.  For an existing file the report carries under
    [spring_equinox_energy] the mean of three terms: the size in bytes
    modulo 320 over 320, the last four digits of the content hash read in
    base 16 modulo 432 over 432, and the resonance value (the content
    length modulo 432) over 432.  The last four digits of the hash always
    parse.  The scalar is at least 0 and below 1 (it is at most 0.998), and
    any other call on the same file, at another clock reading or with
    another tag, reports the same scalar. *)
Theorem derived_scalar_formula_range_determinism
    (rt : runtime) (w : world) (path level : string) (f : file) :
  fs w path = Some f ->
  exists (report : pydict) (tr : list io_event) (q : Q),
    run (analyze_file_miracatech rt w path level) = (Ok (PDict report), tr)
    /\ Dict.get "spring_equinox_energy" report = Some (PFloat q)
    /\ int_base16 (Str.take_last 4 (hashlib.sha256_hexdigest (content f)))
       = Ok (hash_tail f)
    /\ (q == derived_scalar (Z.of_N (st_size f)) (hash_tail f)
              (Z.of_nat (List.length (content f)) mod 432))%Q
    /\ (0 <= q)%Q /\ (q < 1)%Q /\ (q <= 998 # 1000)%Q
    /\ (forall (w' : world) (level' : string),
          fs w' path = Some f ->
          exists (report' : pydict) (tr' : list io_event),
            run (analyze_file_miracatech rt w' path level')
            = (Ok (PDict report'), tr')
            /\ Dict.get "spring_equinox_energy" report' = Some (PFloat q)).
Proof.
  intros Hf.
  destruct (existing_file_report rt w path level f Hf) as (summary & tr & _ & H).
  exists (report_of rt w path level f (PDict summary)), tr, (energy_of f).
  pose proof (energy_matches_formula f) as E.
  pose proof (derived_scalar_range (Z.of_N (st_size f)) (hash_tail f)
                (Z.of_nat (List.length (content f)))) as [R0 R1].
  repeat split.
  - exact H.
  - apply hash_tail_parses.
  - exact E.
  - now rewrite E.
  - rewrite E. apply Qle_lt_trans with (998 # 1000); [exact R1 | reflexivity].
  - now rewrite E.
  - intros w' level' Hf'.
    destruct (existing_file_report rt w' path level' f Hf') as (s' & tr' & _ & H').
    now exists (report_of rt w' path level' f (PDict s')), tr'.
Qed.

Lemma derived_scalar_formula_range_determinism_witness :
  exists (report : pydict) (tr : list io_event) (q : Q),
    run (analyze_file_miracatech Posix.rt Posix.w "notes.py" "full")
    = (Ok (PDict report), tr)
    /\ Dict.get "spring_equinox_energy" report = Some (PFloat q)
    /\ (0 <= q)%Q /\ (q < 1)%Q
    /\ exists (report' : pydict) (tr' : list io_event),
         run (analyze_file_miracatech Posix.rt
                (Posix.world_at "2027-01-01T00:00:00") "notes.py" "quick")
         = (Ok (PDict report'), tr')
         /\ Dict.get "spring_equinox_energy" report' = Some (PFloat q).
Proof.
  destruct (derived_scalar_formula_range_determinism Posix.rt Posix.w
              "notes.py" "full" (Posix.regular comment_blank_code) eq_refl)
    as (report & tr & q & H & G & _ & _ & Q0 & Q1 & _ & D).
  exists report, tr, q. repeat split; try assumption.
  apply D. reflexivity.
Defined.

(** ** The structural summary *)

(** C4.  [_analyze_internal_structure] never raises: whatever the file
    and the extension, it returns a summary.  When a statement of its
    [try] block raises with message [msg], the summary is the initial one
    with [internal_coherence] set to false and [msg] added under the key
    [error] of the summary ([details] stays empty).  The call of the entry
    point on an existing file then still returns a report, with that
    summary under the [insight] position and with the sections that do not
    depend on the file. *)
Theorem parse_errors_stay_in_the_summary
    (rt : runtime) (w : world) (path : string) :
  (forall (info : pydict) (ext : pyval) (tr : list io_event),
      Dict.get "extension" info = Some ext ->
      (exists (summary : pydict) (tr' : list io_event),
          _analyze_internal_structure rt w path (PDict info) tr
          = (Ok (PDict summary), tr'))
      /\ (forall (msg : string) (tr' : list io_event),
            structure_try rt w path ext initial_result tr = (Raise msg, tr') ->
            _analyze_internal_structure rt w path (PDict info) tr
            = (Ok (PDict
                 [ ("internal_coherence", PBool false);
                   ("structural_integrity", PInt 0);
                   ("consciousness_depth", PInt 0);
                   ("details", PDict []);
                   ("error", PStr msg) ]),
               tr')))
  /\ (forall (f : file) (level : string),
        fs w path = Some f ->
        exists (summary report : pydict) (tr : list io_event),
          _analyze_internal_structure rt w path (metadata_of rt path f)
            (EvExists path :: metadata_events path) = (Ok (PDict summary), tr)
          /\ run (analyze_file_miracatech rt w path level)
             = (Ok (PDict report), tr)
          /\ (exists envelope : pydict,
                Dict.get "quadundrum_analysis" report = Some (PDict envelope)
                /\ Dict.get "insight" envelope
                   = Some (_apply_x2_processing (PDict summary)
                             (metadata_of rt path f)))
          /\ Dict.get "picsees_vision" report = Some (_generate_picsees_insights [])
          /\ Dict.get "huraus_action" report
             = Some (_generate_huraus_recommendations [])
          /\ Dict.get "asur_wisdom" report
             = Some (_generate_asur_transcendent_view [])
          /\ Dict.get "consciousness_level" report = Some (PStr level)).
Proof.
  split.
  - intros info ext tr He. split.
    + now apply insight_total with ext.
    + intros msg tr' Hr. now apply insight_failure with ext.
  - intros f level Hf.
    destruct (existing_file_report rt w path level f Hf) as (summary & tr & Hs & H).
    exists summary, (report_of rt w path level f (PDict summary)), tr.
    repeat split; try assumption; try reflexivity.
    eexists. split; reflexivity.
Qed.

Lemma parse_errors_stay_in_the_summary_witness :
  structure_try Posix.rt Posix.w "broken.json" (PStr ".json") initial_result []
  = (Raise "Unterminated string starting at: line 1 column 2 (char 1)",
     text_events "broken.json")
  /\ _analyze_internal_structure Posix.rt Posix.w "broken.json"
       (metadata_of Posix.rt "broken.json" (Posix.regular Posix.truncated_document)) []
     = (Ok (PDict
          [ ("internal_coherence", PBool false);
            ("structural_integrity", PInt 0);
            ("consciousness_depth", PInt 0);
            ("details", PDict []);
            ("error",
              PStr "Unterminated string starting at: line 1 column 2 (char 1)") ]),
        text_events "broken.json")
  /\ exists (report : pydict) (tr : list io_event),
       run (analyze_file_miracatech Posix.rt Posix.w "broken.json" "full")
       = (Ok (PDict report), tr)
       /\ Dict.get "asur_wisdom" report
          = Some (_generate_asur_transcendent_view []).
Proof.
  destruct (parse_errors_stay_in_the_summary Posix.rt Posix.w "broken.json")
    as [A B].
  assert (R : structure_try Posix.rt Posix.w "broken.json" (PStr ".json")
                initial_result []
              = (Raise "Unterminated string starting at: line 1 column 2 (char 1)",
                 text_events "broken.json"))
    by (vm_compute; reflexivity).
  split; [exact R | split].
  - destruct (A (metadata_entries Posix.rt "broken.json"
                   (Posix.regular Posix.truncated_document))
                (PStr ".json") [] eq_refl) as [_ F].
    apply F. exact R.
  - destruct (B (Posix.regular Posix.truncated_document) "full" eq_refl)
      as (summary & report & tr & _ & H & _ & _ & _ & W & _).
    exists report, tr. split; assumption.
Defined.

(** C6.  For a file with extension [.json] whose text parses, the summary
    reports under [consciousness_keys] the number of keys of the parsed
    value when it is a dict and 0 otherwise, and reports 1 for
    [structural_integrity], [consciousness_depth] and [awareness_depth]
    whatever the parsed value and its nesting are. *)
Theorem json_summary_counts_keys
    (rt : runtime) (w : world) (path : string) (info : pydict) (f : file)
    (text : string) (data : pyval) (tr : list io_event) :
  Dict.get "extension" info = Some (PStr ".json") ->
  fs w path = Some f ->
  decode_text rt (content f) = Ok text ->
  json_loads rt text = Ok data ->
  _analyze_internal_structure rt w path (PDict info) tr
  = (Ok (PDict
       [ ("internal_coherence", PBool true);
         ("structural_integrity", PInt 1);
         ("consciousness_depth", PInt 1);
         ("details", PDict
            [ ("consciousness_keys", PInt (key_count data));
              ("awareness_depth", PInt 1);
              ("energy_types", PList (energy_types rt data)) ]) ]),
     (tr ++ text_events path)%list).
Proof.
  intros He Hf Hd Hj.
  apply insight_success with (ext := PStr ".json"); [exact He|].
  unfold structure_try. cbn [eq_str String.eqb Ascii.eqb Bool.eqb].
  unfold json_branch. rewrite (text_run rt w path f text _ tr Hf Hd).
  erewrite bind_ok; [| unfold lift; rewrite Hj; reflexivity].
  destruct data; reflexivity.
Qed.

(** A document nested three deep with three top-level keys. *)
Lemma json_summary_counts_keys_witness :
  json_loads Posix.rt Posix.nested_document = Ok Posix.nested_value
  /\ _analyze_internal_structure Posix.rt Posix.w "data.json"
       (metadata_of Posix.rt "data.json" (Posix.regular Posix.nested_document)) []
     = (Ok (PDict
          [ ("internal_coherence", PBool true);
            ("structural_integrity", PInt 1);
            ("consciousness_depth", PInt 1);
            ("details", PDict
               [ ("consciousness_keys", PInt 3);
                 ("awareness_depth", PInt 1);
                 ("energy_types", PList [PStr "str"; PStr "list"; PStr "dict"]) ]) ]),
        text_events "data.json").
Proof.
  split; [vm_compute; reflexivity|].
  apply (json_summary_counts_keys Posix.rt Posix.w "data.json"
           (metadata_entries Posix.rt "data.json" (Posix.regular Posix.nested_document))
           (Posix.regular Posix.nested_document)
           Posix.nested_document Posix.nested_value []);
    vm_compute; reflexivity.
Defined.

(** C7.  For a file with extension [.csv] whose text the reader accepts,
    the summary reports the length of the first row as the column count (0
    when there is no row), the number of rows as the row count, and the
    first row as the header list (empty when there is no row).  For the
    three lines [a,b,c], [1,2,3], [4,5,6], with or without a newline after
    the last one, it reports 3 columns, 3 rows and the header [a], [b],
    [c]. *)
Theorem csv_summary_counts_rows_and_columns (rt : runtime) (w : world) :
  (forall (path : string) (info : pydict) (f : file) (text : string)
          (rows : list (list string)) (tr : list io_event),
      Dict.get "extension" info = Some (PStr ".csv") ->
      fs w path = Some f ->
      decode_text rt (content f) = Ok text ->
      csv.reader_rows text = Ok rows ->
      _analyze_internal_structure rt w path (PDict info) tr
      = (Ok (PDict
           [ ("internal_coherence", PBool true);
             ("structural_integrity", PInt (column_count rows));
             ("consciousness_depth", PInt (Z.of_nat (List.length rows)));
             ("details", PDict
                [ ("data_dimensions", PInt (column_count rows));
                  ("consciousness_records", PInt (Z.of_nat (List.length rows)));
                  ("energy_headers", PList (header rows)) ]) ]),
         (tr ++ text_events path)%list))
  /\ (forall (path : string) (info : pydict) (f : file) (tr : list io_event),
        Dict.get "extension" info = Some (PStr ".csv") ->
        fs w path = Some f ->
        decode_text rt (content f) = Ok three_rows
        \/ decode_text rt (content f) = Ok three_rows_open ->
        _analyze_internal_structure rt w path (PDict info) tr
        = (Ok (PDict
             [ ("internal_coherence", PBool true);
               ("structural_integrity", PInt 3);
               ("consciousness_depth", PInt 3);
               ("details", PDict
                  [ ("data_dimensions", PInt 3);
                    ("consciousness_records", PInt 3);
                    ("energy_headers", PList [PStr "a"; PStr "b"; PStr "c"]) ]) ]),
           (tr ++ text_events path)%list)).
Proof.
  assert (G : forall (path : string) (info : pydict) (f : file) (text : string)
          (rows : list (list string)) (tr : list io_event),
      Dict.get "extension" info = Some (PStr ".csv") ->
      fs w path = Some f ->
      decode_text rt (content f) = Ok text ->
      csv.reader_rows text = Ok rows ->
      _analyze_internal_structure rt w path (PDict info) tr
      = (Ok (PDict
           [ ("internal_coherence", PBool true);
             ("structural_integrity", PInt (column_count rows));
             ("consciousness_depth", PInt (Z.of_nat (List.length rows)));
             ("details", PDict
                [ ("data_dimensions", PInt (column_count rows));
                  ("consciousness_records", PInt (Z.of_nat (List.length rows)));
                  ("energy_headers", PList (header rows)) ]) ]),
         (tr ++ text_events path)%list)).
  { intros path info f text rows tr He Hf Hd Hr.
    apply insight_success with (ext := PStr ".csv"); [exact He|].
    unfold structure_try. cbn [eq_str String.eqb Ascii.eqb Bool.eqb].
    unfold csv_branch. rewrite (text_run rt w path f text _ tr Hf Hd).
    erewrite bind_ok; [| unfold lift; rewrite Hr; reflexivity].
    destruct rows; reflexivity. }
  split; [exact G|].
  intros path info f tr He Hf [Hd|Hd].
  - apply (G path info f three_rows
             [["a"; "b"; "c"]; ["1"; "2"; "3"]; ["4"; "5"; "6"]] tr He Hf Hd).
    vm_compute. reflexivity.
  - apply (G path info f three_rows_open
             [["a"; "b"; "c"]; ["1"; "2"; "3"]; ["4"; "5"; "6"]] tr He Hf Hd).
    vm_compute. reflexivity.
Qed.

Lemma csv_summary_counts_rows_and_columns_witness :
  decode_text Posix.rt (content (Posix.regular three_rows)) = Ok three_rows
  /\ _analyze_internal_structure Posix.rt Posix.w "table.csv"
       (metadata_of Posix.rt "table.csv" (Posix.regular three_rows)) []
     = (Ok (PDict
          [ ("internal_coherence", PBool true);
            ("structural_integrity", PInt 3);
            ("consciousness_depth", PInt 3);
            ("details", PDict
               [ ("data_dimensions", PInt 3);
                 ("consciousness_records", PInt 3);
                 ("energy_headers", PList [PStr "a"; PStr "b"; PStr "c"]) ]) ]),
        text_events "table.csv").
Proof.
  assert (D : decode_text Posix.rt (content (Posix.regular three_rows))
              = Ok three_rows) by (vm_compute; reflexivity).
  split; [exact D|].
  destruct (csv_summary_counts_rows_and_columns Posix.rt Posix.w) as [_ P].
  apply (P "table.csv" (metadata_entries Posix.rt "table.csv" (Posix.regular three_rows))
           (Posix.regular three_rows) []).
  - vm_compute. reflexivity.
  - reflexivity.
  - left. exact D.
Defined.

(** C1, as the code has it.  For a file with extension [.py] whose text is
    a comment line, a blank line and a line of code, each ended by a
    newline, the summary reports 4 as the total line count, 2 non-blank
    lines and 1 comment line: the total is the number of items
    [split] returns for the newline, which is one more than the number of
    newlines, and the last item here is the empty string after the final
    newline. *)
Theorem code_summary_counts_split_items
    (rt : runtime) (w : world) (path : string) (info : pydict)
    (f : file) (tr : list io_event) :
  Dict.get "extension" info = Some (PStr ".py") ->
  fs w path = Some f ->
  decode_text rt (content f) = Ok comment_blank_code ->
  _analyze_internal_structure rt w path (PDict info) tr
  = (Ok (PDict
       [ ("internal_coherence", PBool true);
         ("structural_integrity", PInt 4);
         ("consciousness_depth", PInt 4);
         ("details", PDict
            [ ("consciousness_lines", PInt 2);
              ("total_expressions", PInt 4);
              ("wisdom_comments", PInt 1) ]) ]),
     (tr ++ text_events path)%list)
  /\ Str.split Str.newline comment_blank_code = ["# comment"; ""; "code_line"; ""]
  /\ (forall text : string,
        List.length (Str.split Str.newline text) = S (newline_count text)).
Proof.
  intros He Hf Hd. split; [|split].
  - apply insight_success with (ext := PStr ".py"); [exact He|].
    unfold structure_try.
    cbn [eq_str String.eqb Ascii.eqb Bool.eqb existsb orb].
    unfold code_branch. rewrite (text_run rt w path f _ _ tr Hf Hd).
    vm_compute. reflexivity.
  - vm_compute. reflexivity.
  - apply split_length.
Qed.

Lemma code_summary_counts_split_items_witness :
  decode_text Posix.rt (content (Posix.regular comment_blank_code))
  = Ok comment_blank_code
  /\ reports_line_counts
       (PDict
          [ ("internal_coherence", PBool true);
            ("structural_integrity", PInt 4);
            ("consciousness_depth", PInt 4);
            ("details", PDict
               [ ("consciousness_lines", PInt 2);
                 ("total_expressions", PInt 4);
                 ("wisdom_comments", PInt 1) ]) ]) 4 2 1
  /\ _analyze_internal_structure Posix.rt Posix.w "notes.py"
       (metadata_of Posix.rt "notes.py" (Posix.regular comment_blank_code)) []
     = (Ok (PDict
          [ ("internal_coherence", PBool true);
            ("structural_integrity", PInt 4);
            ("consciousness_depth", PInt 4);
            ("details", PDict
               [ ("consciousness_lines", PInt 2);
                 ("total_expressions", PInt 4);
                 ("wisdom_comments", PInt 1) ]) ]),
        text_events "notes.py").
Proof.
  assert (D : decode_text Posix.rt (content (Posix.regular comment_blank_code))
              = Ok comment_blank_code) by (vm_compute; reflexivity).
  split; [exact D | split].
  - do 2 eexists. repeat split; reflexivity.
  - apply (code_summary_counts_split_items Posix.rt Posix.w "notes.py"
             (metadata_entries Posix.rt "notes.py" (Posix.regular comment_blank_code))
             (Posix.regular comment_blank_code) []).
    + vm_compute. reflexivity.
    + reflexivity.
    + exact D.
Defined.

(** C1, as stated, fails: on the file [notes.py] holding that text the
    summary does not report the line counts 3, 2, 1; it reports 4, 2, 1. *)
Lemma code_summary_total_is_not_three :
  exists (summary : pyval) (tr : list io_event),
    run (_analyze_internal_structure Posix.rt Posix.w "notes.py"
           (metadata_of Posix.rt "notes.py" (Posix.regular comment_blank_code)))
    = (Ok summary, tr)
    /\ reports_line_counts summary 4 2 1
    /\ ~ reports_line_counts summary 3 2 1.
Proof.
  eexists. eexists. split; [vm_compute; reflexivity|]. split.
  - do 2 eexists. repeat split; reflexivity.
  - intros (entries & details & E & T & _).
    injection E as <-. vm_compute in T. discriminate T.
Qed.

(** * Further properties *)

(** ** The metadata *)

Lemma string_length_append (a b : string) :
  String.length (a ++ b) = (String.length a + String.length b)%nat.
Proof. induction a as [|c a IH]; simpl; [reflexivity | now rewrite IH]. Qed.

Lemma signature_groups (content : list byte) :
  _calculate_quadundrum_signature content
  = group content 0 ++ "-" ++ group content 1 ++ "-"
      ++ group content 2 ++ "-" ++ group content 3.
Proof.
  unfold _calculate_quadundrum_signature.
  cbn [seq fold_left app].
  rewrite !slice_quarter. apply join4.
Qed.

Lemma group_length (content : list byte) (i : nat) :
  String.length (group content i) = 8%nat.
Proof.
  unfold group. apply take_length. rewrite md5_hexdigest_length. lia.
Qed.

Lemma signature_length (content : list byte) :
  String.length (_calculate_quadundrum_signature content) = 35%nat.
Proof.
  rewrite signature_groups, !string_length_append, !group_length. reflexivity.
Qed.

(** X1.  [_get_consciousness_metadata] on a path at which there is no
    file raises what [os.stat] raises for that path (the
    [FileNotFoundError] when nothing has that name); the exception is not
    turned into a record, the only call made on the file system is that
    [os.stat], and nothing is opened. *)
Theorem metadata_of_missing_path_raises
    (rt : runtime) (w : world) (path : string) (tr : list io_event) :
  fs w path = None ->
  _get_consciousness_metadata rt w path tr
  = (Raise (os_error w path), (tr ++ [EvStat path])%list).
Proof.
  intros Hf.
  unfold _get_consciousness_metadata, os_stat, bind, emit, ret, raise.
  now rewrite Hf.
Qed.

(** A name without quotes and a name with a single quote. *)
Lemma metadata_of_missing_path_raises_witness :
  run (_get_consciousness_metadata Posix.rt Posix.w "nothing")
  = (Raise "[Errno 2] No such file or directory: 'nothing'", [EvStat "nothing"])
  /\ run (_get_consciousness_metadata Posix.rt Posix.w "it's.csv")
     = (Raise ("[Errno 2] No such file or directory: "
                 ++ Posix.double_quote ++ "it's.csv" ++ Posix.double_quote),
        [EvStat "it's.csv"]).
Proof.
  split.
  - apply (metadata_of_missing_path_raises Posix.rt Posix.w "nothing" []).
    reflexivity.
  - apply (metadata_of_missing_path_raises Posix.rt Posix.w "it's.csv" []).
    reflexivity.
Defined.

(** X2.  For an existing file [_get_consciousness_metadata] makes one
    [os.stat], one [open] in binary mode and one read, and returns a dict
    with the twelve metadata keys in order.  It echoes the path; the size
    is the one [os.stat] reports and the human-readable size is computed
    from it; the resonance value is the content length modulo 432, so it
    lies in [0, 432); the content hash has 64 characters in [0-9a-f]; the
    composite identifier has 35 characters. *)
Theorem metadata_invariants
    (rt : runtime) (w : world) (path : string) (f : file) (tr : list io_event) :
  fs w path = Some f ->
  exists info : pydict,
    _get_consciousness_metadata rt w path tr
    = (Ok (PDict info), (tr ++ [EvStat path; EvOpen path "rb"; EvRead path])%list)
    /\ Dict.keys info = metadata_keys
    /\ Dict.get "path" info = Some (PStr path)
    /\ Dict.get "size_bytes" info = Some (PInt (Z.of_N (st_size f)))
    /\ Dict.get "size_human" info
       = Some (PStr (_format_file_size (Z.of_N (st_size f))))
    /\ (exists r : Z,
          Dict.get "resonance_frequency" info = Some (PInt r)
          /\ r = Z.of_nat (List.length (content f)) mod 432
          /\ 0 <= r < 432)
    /\ (exists h : string,
          Dict.get "consciousness_hash" info = Some (PStr h)
          /\ String.length h = 64%nat /\ all_lower_hex h = true)
    /\ (exists s : string,
          Dict.get "quadundrum_signature" info = Some (PStr s)
          /\ String.length s = 35%nat).
Proof.
  intros Hf. exists (metadata_entries rt path f).
  split; [exact (metadata_run rt w path f tr Hf)|].
  repeat split.
  - eexists. repeat split.
    + apply Z.mod_pos_bound. lia.
    + apply Z.mod_pos_bound. lia.
  - eexists. split; [reflexivity|]. split.
    + apply sha256_hexdigest_length.
    + apply sha256_hexdigest_lower_hex.
  - eexists. split; [reflexivity|]. apply signature_length.
Qed.

Lemma metadata_invariants_witness :
  exists info : pydict,
    run (_get_consciousness_metadata Posix.rt Posix.w "ab.txt")
    = (Ok (PDict info), [EvStat "ab.txt"; EvOpen "ab.txt" "rb"; EvRead "ab.txt"])
    /\ Dict.get "resonance_frequency" info = Some (PInt 2)
    /\ Dict.get "quadundrum_signature" info
       = Some (PStr "d41d8cd9-d41d8cd9-d41d8cd9-d41d8cd9").
Proof.
  destruct (metadata_invariants Posix.rt Posix.w "ab.txt" (Posix.regular "ab") []
              eq_refl) as (info & H & _).
  exists info. split; [exact H|].
  unfold run in *.
  assert (E : info = metadata_entries Posix.rt "ab.txt" (Posix.regular "ab")).
  { pose proof (metadata_run Posix.rt Posix.w "ab.txt" (Posix.regular "ab") []
                  eq_refl) as M.
    unfold metadata_of in M. congruence. }
  subst info. split; vm_compute; reflexivity.
Defined.

(** ** The summarizer on every kind of input *)

Lemma structure_try_unparsed (rt : runtime) (w : world) (path : string)
    (ext : pyval) (result : pydict) (tr : list io_event) :
  is_parsed ext = false ->
  structure_try rt w path ext result tr = (Ok result, tr).
Proof.
  unfold is_parsed, parsed_extensions, code_extensions. cbn [existsb].
  intros H. apply orb_false_iff in H as [Hj H].
  apply orb_false_iff in H as [Hc H].
  unfold structure_try. rewrite Hj, Hc. cbn [existsb]. now rewrite H.
Qed.

(** X3.  When the extension in [file_info] is none of [.json], [.csv],
    [.py], [.js], [.sol] (another string, a string in another case, or no
    string at all), [_analyze_internal_structure] returns the initial
    summary, coherent with zero counts and empty details, and makes no call
    on the file system: the file need not even exist. *)
Theorem unparsed_extension_gets_default_summary
    (rt : runtime) (w : world) (path : string) (info : pydict) (ext : pyval)
    (tr : list io_event) :
  Dict.get "extension" info = Some ext ->
  is_parsed ext = false ->
  _analyze_internal_structure rt w path (PDict info) tr
  = (Ok (PDict
       [ ("internal_coherence", PBool true);
         ("structural_integrity", PInt 0);
         ("consciousness_depth", PInt 0);
         ("details", PDict []) ]),
     tr).
Proof.
  intros He Hp. apply insight_success with ext; [exact He|].
  now apply structure_try_unparsed.
Qed.

Lemma unparsed_extension_gets_default_summary_witness :
  is_parsed (PStr ".txt") = false
  /\ is_parsed (PStr ".PY") = false
  /\ is_parsed PNone = false
  /\ run (_analyze_internal_structure Posix.rt Posix.w "nothing"
            (PDict [("extension", PStr ".PY")]))
     = (Ok (PDict
          [ ("internal_coherence", PBool true);
            ("structural_integrity", PInt 0);
            ("consciousness_depth", PInt 0);
            ("details", PDict []) ]),
        []).
Proof.
  split; [reflexivity | split; [reflexivity | split; [reflexivity|]]].
  apply (unparsed_extension_gets_default_summary Posix.rt Posix.w "nothing"
           [("extension", PStr ".PY")] (PStr ".PY") []); reflexivity.
Defined.

(** X4.  [_analyze_internal_structure] does raise when [file_info] has
    no [extension] key: the lookup stands before the [try] block, so the
    [KeyError] reaches the caller, and no call is made on the file
    system. *)
Theorem summarizer_needs_the_extension_key
    (rt : runtime) (w : world) (path : string) (info : pydict)
    (tr : list io_event) :
  Dict.get "extension" info = None ->
  _analyze_internal_structure rt w path (PDict info) tr
  = (Raise "'extension'", tr).
Proof.
  intros He. unfold _analyze_internal_structure, getitem, bind, raise.
  now rewrite He.
Qed.

Lemma summarizer_needs_the_extension_key_witness :
  run (_analyze_internal_structure Posix.rt Posix.w "notes.py"
         (PDict [("name", PStr "notes.py")]))
  = (Raise "'extension'", []).
Proof.
  apply (summarizer_needs_the_extension_key Posix.rt Posix.w "notes.py"
           [("name", PStr "notes.py")] []).
  reflexivity.
Defined.

Lemma is_parsed_cases (ext : pyval) :
  is_parsed ext = true ->
  eq_str ext ".json" = true
  \/ (eq_str ext ".json" = false /\ eq_str ext ".csv" = true)
  \/ (eq_str ext ".json" = false /\ eq_str ext ".csv" = false
      /\ existsb (eq_str ext) code_extensions = true).
Proof.
  unfold is_parsed, parsed_extensions. cbn [existsb].
  destruct (eq_str ext ".json"); [now left|].
  destruct (eq_str ext ".csv"); [intros _; right; left; now split|].
  intros H. right. right. now repeat split.
Qed.

(** The [try] block when opening or decoding fails. *)
Lemma structure_try_open_fails (rt : runtime) (w : world) (path : string)
    (ext : pyval) (result : pydict) (tr : list io_event) :
  is_parsed ext = true ->
  fs w path = None ->
  structure_try rt w path ext result tr
  = (Raise (os_error w path), (tr ++ [EvOpen path "r"])%list).
Proof.
  intros Hp Hf. unfold structure_try.
  destruct (is_parsed_cases ext Hp) as [-> | [[-> ->] | (-> & -> & H)]].
  - unfold json_branch, open, bind, emit, raise. now rewrite Hf.
  - unfold csv_branch, open, bind, emit, raise. now rewrite Hf.
  - unfold code_extensions in H. rewrite H.
    unfold code_branch, open, bind, emit, raise. now rewrite Hf.
Qed.

Lemma text_run_raise (rt : runtime) (w : world) {A : Type} (path : string)
    (f : file) (msg : string) (k : string -> io A) (tr : list io_event) :
  fs w path = Some f ->
  decode_text rt (content f) = Raise msg ->
  (f' <- open w path "r" ;; text' <- read_text rt path f' ;; k text') tr
  = (Raise msg, (tr ++ text_events path)%list).
Proof.
  intros Hf Hd.
  erewrite bind_ok; [| apply open_run; exact Hf].
  erewrite bind_raise; [| rewrite read_text_run, Hd; reflexivity].
  unfold text_events. now rewrite <- app_assoc.
Qed.

Lemma structure_try_decode_fails (rt : runtime) (w : world) (path : string)
    (f : file) (msg : string) (ext : pyval) (result : pydict)
    (tr : list io_event) :
  is_parsed ext = true ->
  fs w path = Some f ->
  decode_text rt (content f) = Raise msg ->
  structure_try rt w path ext result tr
  = (Raise msg, (tr ++ text_events path)%list).
Proof.
  intros Hp Hf Hd. unfold structure_try.
  destruct (is_parsed_cases ext Hp) as [-> | [[-> ->] | (-> & -> & H)]].
  - unfold json_branch. now apply text_run_raise with f.
  - unfold csv_branch. now apply text_run_raise with f.
  - unfold code_extensions in H. rewrite H.
    unfold code_branch. now apply text_run_raise with f.
Qed.

(** X5.  When the extension is one the summarizer parses and there is no
    file at the path, the failed [open] is caught: the summary is the
    incoherent one with the message of what [open] raised under [error]
    (that of the [FileNotFoundError] when nothing has that name), and the
    only call on the file system is that [open]. *)
Theorem summarizer_on_missing_file
    (rt : runtime) (w : world) (path : string) (info : pydict) (ext : pyval)
    (tr : list io_event) :
  Dict.get "extension" info = Some ext ->
  is_parsed ext = true ->
  fs w path = None ->
  _analyze_internal_structure rt w path (PDict info) tr
  = (Ok (PDict
       [ ("internal_coherence", PBool false);
         ("structural_integrity", PInt 0);
         ("consciousness_depth", PInt 0);
         ("details", PDict []);
         ("error", PStr (os_error w path)) ]),
     (tr ++ [EvOpen path "r"])%list).
Proof.
  intros He Hp Hf. apply (insight_failure rt w path info ext); [exact He|].
  now apply structure_try_open_fails.
Qed.

(** A name without quotes and a name with a single quote. *)
Lemma summarizer_on_missing_file_witness :
  run (_analyze_internal_structure Posix.rt Posix.w "gone.csv"
         (PDict [("extension", PStr ".csv")]))
  = (Ok (PDict
       [ ("internal_coherence", PBool false);
         ("structural_integrity", PInt 0);
         ("consciousness_depth", PInt 0);
         ("details", PDict []);
         ("error", PStr "[Errno 2] No such file or directory: 'gone.csv'") ]),
     [EvOpen "gone.csv" "r"])
  /\ run (_analyze_internal_structure Posix.rt Posix.w "it's.csv"
            (PDict [("extension", PStr ".csv")]))
     = (Ok (PDict
          [ ("internal_coherence", PBool false);
            ("structural_integrity", PInt 0);
            ("consciousness_depth", PInt 0);
            ("details", PDict []);
            ("error",
              PStr ("[Errno 2] No such file or directory: "
                      ++ Posix.double_quote ++ "it's.csv" ++ Posix.double_quote)) ]),
        [EvOpen "it's.csv" "r"]).
Proof.
  split.
  - apply (summarizer_on_missing_file Posix.rt Posix.w "gone.csv"
             [("extension", PStr ".csv")] (PStr ".csv") []); reflexivity.
  - apply (summarizer_on_missing_file Posix.rt Posix.w "it's.csv"
             [("extension", PStr ".csv")] (PStr ".csv") []); reflexivity.
Defined.



Lemma filter_length_le {A : Type} (p : A -> bool) (l : list A) :
  (List.length (filter p l) <= List.length l)%nat.
Proof.
  induction l as [|x l IH]; simpl; [lia|]. destruct (p x); simpl; lia.
Qed.

Lemma filter_length_mono {A : Type} (p q : A -> bool) (l : list A) :
  (forall x, p x = true -> q x = true) ->
  (List.length (filter p l) <= List.length (filter q l))%nat.
Proof.
  intros H. induction l as [|x l IH]; simpl; [lia|].
  destruct (p x) eqn:P.
  - rewrite (H x P). simpl. lia.
  - destruct (q x); simpl; lia.
Qed.

Lemma comment_is_nonblank (s : string) :
  Str.startswith "#" s = true -> Str.truthy s = true.
Proof. destruct s; [discriminate | reflexivity]. Qed.

(** The summary of a file read as lines of code. *)
Lemma code_branch_summary
    (rt : runtime) (w : world) (path : string) (info : pydict) (ext : string)
    (f : file) (text : string) (tr : list io_event) :
  Dict.get "extension" info = Some (PStr ext) ->
  In ext code_extensions ->
  fs w path = Some f ->
  decode_text rt (content f) = Ok text ->
  _analyze_internal_structure rt w path (PDict info) tr
  = (Ok (PDict (code_summary text)), (tr ++ text_events path)%list).
Proof.
  intros He Hin Hf Hd.
  apply insight_success with (ext := PStr ext); [exact He|].
  assert (B : structure_try rt w path (PStr ext) initial_result tr
              = code_branch rt w path initial_result tr).
  { unfold code_extensions in Hin. cbn [In] in Hin.
    destruct Hin as [<- | [<- | [<- | []]]]; reflexivity. }
  rewrite B. unfold code_branch.
  rewrite (text_run rt w path f text _ tr Hf Hd).
  unfold _calculate_code_consciousness, py_len, code_summary, nonblank_count,
    comment_count.
  rewrite <- (split_length text). reflexivity.
Qed.

(** X7.  For a file with extension [.py], [.js] or [.sol] whose content
    decodes to [text], the summary reports one more than the number of
    newlines of [text] as [structural_integrity], [consciousness_depth] and
    [total_expressions] (so never 0, also for an empty file), the number of
    non-blank lines and the number of lines whose first non-blank character
    is [#], for the three extensions alike.  Comment lines are at most the
    non-blank lines, which are at most the total. *)
Theorem code_summary_line_counts
    (rt : runtime) (w : world) (path : string) (info : pydict) (ext : string)
    (f : file) (text : string) (tr : list io_event) :
  Dict.get "extension" info = Some (PStr ext) ->
  In ext code_extensions ->
  fs w path = Some f ->
  decode_text rt (content f) = Ok text ->
  let total := S (newline_count text) in
  _analyze_internal_structure rt w path (PDict info) tr
  = (Ok (PDict
       [ ("internal_coherence", PBool true);
         ("structural_integrity", PInt (Z.of_nat total));
         ("consciousness_depth", PInt (Z.of_nat total));
         ("details", PDict
            [ ("consciousness_lines", PInt (Z.of_nat (nonblank_count text)));
              ("total_expressions", PInt (Z.of_nat total));
              ("wisdom_comments", PInt (Z.of_nat (comment_count text))) ]) ]),
     (tr ++ text_events path)%list)
  /\ (comment_count text <= nonblank_count text <= total)%nat.
Proof.
  intros He Hin Hf Hd total. split.
  - exact (code_branch_summary rt w path info ext f text tr He Hin Hf Hd).
  - unfold nonblank_count, comment_count, total. split.
    + apply filter_length_mono. intros line. apply comment_is_nonblank.
    + rewrite <- (split_length text). apply filter_length_le.
Qed.

Lemma code_summary_line_counts_witness :
  In ".sol" code_extensions
  /\ exists (summary : pydict) (details : pydict) (tr : list io_event),
       run (_analyze_internal_structure Posix.rt Posix.w "notes.py"
              (PDict [("extension", PStr ".sol")]))
       = (Ok (PDict summary), tr)
       /\ Dict.get "details" summary = Some (PDict details)
       /\ Dict.get "wisdom_comments" details = Some (PInt 1)
       /\ Dict.get "total_expressions" details = Some (PInt 4).
Proof.
  assert (I : In ".sol" code_extensions) by (simpl; tauto).
  split; [exact I|].
  destruct (code_summary_line_counts Posix.rt Posix.w "notes.py"
              [("extension", PStr ".sol")] ".sol"
              (Posix.regular comment_blank_code) comment_blank_code []
              eq_refl I eq_refl)
    as [H _]; [vm_compute; reflexivity|].
  do 3 eexists. split; [exact H|].
  repeat split; vm_compute; reflexivity.
Defined.

(** X8.  For a file with extension [.json] whose text the JSON parser
    rejects with message [msg], the summary is the incoherent one with
    [msg] under [error], after one [open] and one read. *)
Theorem unparsable_json_is_reported
    (rt : runtime) (w : world) (path : string) (info : pydict)
    (f : file) (text msg : string) (tr : list io_event) :
  Dict.get "extension" info = Some (PStr ".json") ->
  fs w path = Some f ->
  decode_text rt (content f) = Ok text ->
  json_loads rt text = Raise msg ->
  _analyze_internal_structure rt w path (PDict info) tr
  = (Ok (PDict
       [ ("internal_coherence", PBool false);
         ("structural_integrity", PInt 0);
         ("consciousness_depth", PInt 0);
         ("details", PDict []);
         ("error", PStr msg) ]),
     (tr ++ text_events path)%list).
Proof.
  intros He Hf Hd Hj.
  apply (insight_failure rt w path info (PStr ".json")); [exact He|].
  unfold structure_try. cbn [eq_str String.eqb Ascii.eqb Bool.eqb].
  unfold json_branch. rewrite (text_run rt w path f text _ tr Hf Hd).
  apply bind_raise. unfold lift. now rewrite Hj.
Qed.

Lemma unparsable_json_is_reported_witness :
  json_loads Posix.rt Posix.truncated_document
  = Raise "Unterminated string starting at: line 1 column 2 (char 1)"
  /\ run (_analyze_internal_structure Posix.rt Posix.w "broken.json"
            (PDict [("extension", PStr ".json")]))
     = (Ok (PDict
          [ ("internal_coherence", PBool false);
            ("structural_integrity", PInt 0);
            ("consciousness_depth", PInt 0);
            ("details", PDict []);
            ("error",
              PStr "Unterminated string starting at: line 1 column 2 (char 1)") ]),
        text_events "broken.json").
Proof.
  assert (J : json_loads Posix.rt Posix.truncated_document
              = Raise "Unterminated string starting at: line 1 column 2 (char 1)")
    by (vm_compute; reflexivity).
  split; [exact J|].
  apply (unparsable_json_is_reported Posix.rt Posix.w "broken.json"
           [("extension", PStr ".json")] (Posix.regular Posix.truncated_document)
           Posix.truncated_document _ []).
  - reflexivity.
  - reflexivity.
  - vm_compute. reflexivity.
  - exact J.
Defined.

Ltac run_branch H :=
  cbv beta iota zeta
    delta [json_branch csv_branch code_branch bind open emit ret read_text
           lift raise] in H.

Lemma structure_try_ok_shape (rt : runtime) (w : world) (path : string)
    (ext : pyval) (r : pydict) (tr tr' : list io_event) :
  structure_try rt w path ext initial_result tr = (Ok r, tr') ->
  coherent_summary r.
Proof.
  unfold structure_try, coherent_summary.
  destruct (eq_str ext ".json").
  { intros H. run_branch H.
    destruct (fs w path); [|discriminate H].
    destruct (decode_text rt (content f)) as [text|]; [|discriminate H].
    destruct (json_loads rt text); [|discriminate H].
    injection H as <- _. do 3 eexists. reflexivity. }
  destruct (eq_str ext ".csv").
  { intros H. run_branch H.
    destruct (fs w path); [|discriminate H].
    destruct (decode_text rt (content f)) as [text|]; [|discriminate H].
    destruct (csv.reader_rows text); [|discriminate H].
    injection H as <- _. do 3 eexists. reflexivity. }
  destruct (existsb (eq_str ext) [".py"; ".js"; ".sol"]).
  { intros H. run_branch H.
    destruct (fs w path); [|discriminate H].
    destruct (decode_text rt (content f)) as [text|]; [|discriminate H].
    injection H as <- _. do 3 eexists. reflexivity. }
  intros H. injection H as <- _. do 3 eexists. reflexivity.
Qed.

(** X9.  Whenever [file_info] has an extension,
    [_analyze_internal_structure] returns a summary of one of two shapes:
    either the four keys with [internal_coherence] true and no [error]
    key, or [internal_coherence] false, an [error] message, zero counts and
    empty details.  So a summary has an [error] key exactly when it is
    incoherent, and no partial counts survive a failure. *)
Theorem summary_has_error_iff_incoherent
    (rt : runtime) (w : world) (path : string) (info : pydict) (ext : pyval)
    (tr : list io_event) :
  Dict.get "extension" info = Some ext ->
  exists (summary : pydict) (tr' : list io_event),
    _analyze_internal_structure rt w path (PDict info) tr
    = (Ok (PDict summary), tr')
    /\ ((coherent_summary summary /\ Dict.get "error" summary = None)
        \/ (exists msg : string,
              Dict.get "internal_coherence" summary = Some (PBool false)
              /\ Dict.get "error" summary = Some (PStr msg)
              /\ Dict.get "structural_integrity" summary = Some (PInt 0)
              /\ Dict.get "consciousness_depth" summary = Some (PInt 0)
              /\ Dict.get "details" summary = Some (PDict [])
              /\ Dict.keys summary
                 = [ "internal_coherence"; "structural_integrity";
                     "consciousness_depth"; "details"; "error" ])).
Proof.
  intros He.
  destruct (structure_try rt w path ext initial_result tr) as [[r|msg] tr'] eqn:Hr.
  - exists r, tr'. split; [now apply insight_success with ext|].
    left. pose proof (structure_try_ok_shape rt w path ext r tr tr' Hr) as C.
    split; [exact C|]. destruct C as (a & b & c & ->). reflexivity.
  - pose proof (insight_failure rt w path info ext msg tr tr' He Hr) as H.
    unfold failure_summary in H. eexists _, tr'. split; [exact H|].
    right. exists msg. repeat split.
Qed.

Lemma summary_has_error_iff_incoherent_witness :
  exists (summary : pydict) (tr' : list io_event),
    run (_analyze_internal_structure Posix.rt Posix.w "broken.json"
           (PDict [("extension", PStr ".json")]))
    = (Ok (PDict summary), tr')
    /\ ((coherent_summary summary /\ Dict.get "error" summary = None)
        \/ (exists msg : string,
              Dict.get "internal_coherence" summary = Some (PBool false)
              /\ Dict.get "error" summary = Some (PStr msg)
              /\ Dict.get "structural_integrity" summary = Some (PInt 0)
              /\ Dict.get "consciousness_depth" summary = Some (PInt 0)
              /\ Dict.get "details" summary = Some (PDict [])
              /\ Dict.keys summary
                 = [ "internal_coherence"; "structural_integrity";
                     "consciousness_depth"; "details"; "error" ])).
Proof.
  apply (summary_has_error_iff_incoherent Posix.rt Posix.w "broken.json"
           [("extension", PStr ".json")] (PStr ".json") []).
  reflexivity.
Defined.

Lemma structure_try_events (rt : runtime) (w : world) (path : string)
    (f : file) (ext : pyval) (tr : list io_event) :
  fs w path = Some f ->
  snd (structure_try rt w path ext initial_result tr)
  = (tr ++ if is_parsed ext then text_events path else [])%list.
Proof.
  intros Hf. destruct (is_parsed ext) eqn:Hp.
  - destruct (decode_text rt (content f)) as [text|msg] eqn:Hd.
    + unfold structure_try.
      destruct (is_parsed_cases ext Hp) as [-> | [[-> ->] | (-> & -> & H)]].
      * unfold json_branch. rewrite (text_run rt w path f text _ tr Hf Hd).
        unfold bind, lift, ret. destruct (json_loads rt text); reflexivity.
      * unfold csv_branch. rewrite (text_run rt w path f text _ tr Hf Hd).
        unfold bind, lift, ret. destruct (csv.reader_rows text); reflexivity.
      * unfold code_extensions in H. rewrite H.
        unfold code_branch. rewrite (text_run rt w path f text _ tr Hf Hd).
        reflexivity.
    + now rewrite (structure_try_decode_fails rt w path f msg ext _ tr Hp Hf Hd).
  - rewrite (structure_try_unparsed rt w path ext _ tr Hp). simpl.
    now rewrite app_nil_r.
Qed.

Lemma insight_events (rt : runtime) (w : world) (path : string)
    (info : pydict) (ext : pyval) (tr : list io_event) :
  Dict.get "extension" info = Some ext ->
  snd (_analyze_internal_structure rt w path (PDict info) tr)
  = snd (structure_try rt w path ext initial_result tr).
Proof.
  intros He.
  destruct (structure_try rt w path ext initial_result tr) as [[r|msg] tr'] eqn:Hr.
  - now rewrite (insight_success rt w path info r ext tr tr' He Hr).
  - now rewrite (insight_failure rt w path info ext msg tr tr' He Hr).
Qed.

(** X10.  The analysis of an existing file makes these calls on the file
    system and no others: the existence check, [os.stat], one [open] in
    binary mode with one read, and then, only when the lower-cased suffix
    is one of the five parsed extensions, a second [open] in text mode with
    one read, whether parsing then succeeds or fails. *)
Theorem analysis_reads_the_file_once_or_twice
    (rt : runtime) (w : world) (path level : string) (f : file) :
  fs w path = Some f ->
  snd (run (analyze_file_miracatech rt w path level)) = analysis_events rt path.
Proof.
  intros Hf.
  destruct (existing_file_report rt w path level f Hf) as (summary & tr & Hs & H).
  rewrite H. cbn [snd].
  pose proof (insight_events rt w path (metadata_entries rt path f) _
                (EvExists path :: metadata_events path)
                (metadata_extension rt path f)) as E.
  fold (metadata_of rt path f) in E. rewrite Hs in E. cbn [snd] in E.
  rewrite E, (structure_try_events rt w path f _ _ Hf).
  reflexivity.
Qed.

Lemma analysis_reads_the_file_once_or_twice_witness :
  snd (run (analyze_file_miracatech Posix.rt Posix.w "ab.txt" "full"))
  = [EvExists "ab.txt"; EvStat "ab.txt"; EvOpen "ab.txt" "rb"; EvRead "ab.txt"]
  /\ snd (run (analyze_file_miracatech Posix.rt Posix.w "broken.json" "full"))
     = [ EvExists "broken.json"; EvStat "broken.json";
         EvOpen "broken.json" "rb"; EvRead "broken.json";
         EvOpen "broken.json" "r"; EvRead "broken.json" ].
Proof.
  split.
  - rewrite (analysis_reads_the_file_once_or_twice Posix.rt Posix.w "ab.txt" "full"
               (Posix.regular "ab") eq_refl).
    vm_compute. reflexivity.
  - rewrite (analysis_reads_the_file_once_or_twice Posix.rt Posix.w "broken.json"
               "full" (Posix.regular Posix.truncated_document) eq_refl).
    vm_compute. reflexivity.
Defined.

Lemma summary_cases (rt : runtime) (w : world) (path : string) (info : pydict)
    (ext : pyval) (summary : pyval) (tr tr' : list io_event) :
  Dict.get "extension" info = Some ext ->
  _analyze_internal_structure rt w path (PDict info) tr = (Ok summary, tr') ->
  (exists entries, summary = PDict entries /\ coherent_summary entries)
  \/ (exists msg, summary = failure_summary msg).
Proof.
  intros He H.
  destruct (structure_try rt w path ext initial_result tr) as [[r|msg] tr1] eqn:Hr.
  - rewrite (insight_success rt w path info r ext tr tr1 He Hr) in H.
    injection H as <- _. left. exists r. split; [reflexivity|].
    now apply (structure_try_ok_shape rt w path ext r tr tr1).
  - rewrite (insight_failure rt w path info ext msg tr tr1 He Hr) in H.
    injection H as <- _. right. now exists msg.
Qed.

(** X11.  The report on an existing file has the nine report keys in
    order and no [error] or [status] key, so it cannot be mistaken for the
    not-found record.  Its timestamp is the clock reading; its insight
    lines are the same six strings for every file; its analysis has the
    four positions in order, each holding the envelope of a base result
    (the base result three times, the constant synthesis, the factor 2.5),
    and no base result is the failure record of the per-position
    [except] clause. *)
Theorem report_shape
    (rt : runtime) (w : world) (path level : string) (f : file) :
  fs w path = Some f ->
  exists (report envelope : pydict) (tr : list io_event),
    run (analyze_file_miracatech rt w path level) = (Ok (PDict report), tr)
    /\ Dict.keys report = report_keys
    /\ Dict.get "error" report = None
    /\ Dict.get "status" report = None
    /\ Dict.get "timestamp" report = Some (PStr (now_isoformat w))
    /\ Dict.get "consciousness_insights" report = Some (PList insight_lines)
    /\ Dict.get "quadundrum_analysis" report = Some (PDict envelope)
    /\ Dict.keys envelope = position_names
    /\ (forall position : string,
          In position position_names ->
          exists base : pydict,
            Dict.get position envelope = Some (envelope_of (PDict base))
            /\ Dict.get "status" base = None
            /\ Dict.get "consciousness_note" base = None).
Proof.
  intros Hf.
  destruct (existing_file_report rt w path level f Hf) as (summary & tr & Hs & H).
  exists (report_of rt w path level f (PDict summary)),
         (enhanced (metadata_of rt path f) (PDict summary)), tr.
  split; [exact H|].
  split; [reflexivity|]. split; [reflexivity|]. split; [reflexivity|].
  split; [reflexivity|]. split; [reflexivity|]. split; [reflexivity|].
  split; [reflexivity|].
  intros position Hp. unfold position_names in Hp. cbn [In] in Hp.
  destruct Hp as [<- | [<- | [<- | [<- | []]]]].
  - eexists. repeat split.
  - exists summary. split; [reflexivity|].
    destruct (summary_cases rt w path (metadata_entries rt path f) _ _ _ _
                (metadata_extension rt path f) Hs)
      as [(entries & E & (a & b & c & ->)) | (msg & E)].
    + injection E as ->. split; reflexivity.
    + unfold failure_summary in E. injection E as ->. split; reflexivity.
  - eexists. repeat split.
  - eexists. repeat split.
Qed.

Lemma report_shape_witness :
  exists (report : pydict) (tr : list io_event),
    run (analyze_file_miracatech Posix.rt Posix.w "broken.json" "full")
    = (Ok (PDict report), tr)
    /\ Dict.keys report = report_keys
    /\ Dict.get "error" report = None
    /\ Dict.get "consciousness_insights" report = Some (PList insight_lines).
Proof.
  destruct (report_shape Posix.rt Posix.w "broken.json" "full"
              (Posix.regular Posix.truncated_document) eq_refl)
    as (report & envelope & tr & H & K & E & _ & _ & I & _).
  exists report, tr. repeat split; assumption.
Defined.

Lemma firstn_skipn_firstn {A : Type} (q k n : nat) (l : list A) :
  (k + q <= n)%nat ->
  firstn q (skipn k (firstn n l)) = firstn q (skipn k l).
Proof.
  intros H. rewrite skipn_firstn_comm, firstn_firstn.
  f_equal. lia.
Qed.

(** X12.  The composite identifier depends only on the quarter size and
    on the first four quarters of the content: two contents whose lengths
    give the same [len // 4] and that agree on their first
    [4 * (len // 4)] bytes get the same identifier, whatever their last
    bytes (up to three) are. *)
Theorem signature_ignores_the_remainder (a b : list byte) :
  (List.length a / 4 = List.length b / 4)%nat ->
  firstn (4 * (List.length a / 4)) a = firstn (4 * (List.length a / 4)) b ->
  _calculate_quadundrum_signature a = _calculate_quadundrum_signature b.
Proof.
  intros Hq Hp.
  assert (Q : forall i : nat, (i < 4)%nat -> quarter a i = quarter b i).
  { intros i Hi. unfold quarter. rewrite <- Hq.
    set (q := (List.length a / 4)%nat) in *.
    rewrite <- (firstn_skipn_firstn q (i * q) (4 * q) a) by nia.
    rewrite <- (firstn_skipn_firstn q (i * q) (4 * q) b) by nia.
    now rewrite Hp. }
  rewrite !signature_groups. unfold group.
  now rewrite (Q 0%nat), (Q 1%nat), (Q 2%nat), (Q 3%nat) by lia.
Qed.

Lemma signature_ignores_the_remainder_witness :
  bytes_of "abcdefghXYZ" <> bytes_of "abcdefgh123"
  /\ _calculate_quadundrum_signature (bytes_of "abcdefghXYZ")
     = _calculate_quadundrum_signature (bytes_of "abcdefgh123").
Proof.
  split; [discriminate|].
  apply signature_ignores_the_remainder; reflexivity.
Defined.

(** ** The derived scalar on any record *)

Lemma scalar_formula (s t r : Z) :
  ((inject_Z (s mod 320) / 320 + inject_Z (t mod 432) / 432 + inject_Z r / 432) / 3
   == derived_scalar s t r)%Q.
Proof.
  unfold derived_scalar.
  generalize (s mod 320) (t mod 432). intros a b.
  unfold Qeq, Qdiv, Qmult, Qplus, Qinv, inject_Z. cbn. lia.
Qed.

Lemma derived_scalar_bounds (s t r : Z) :
  (0 <= r < 432 ->
   (0 <= derived_scalar s t r)%Q /\ (derived_scalar s t r < 1)%Q)
  /\ (1296 <= r -> (1 <= derived_scalar s t r)%Q)
  /\ (r < -864 -> (derived_scalar s t r < 0)%Q).
Proof.
  unfold derived_scalar.
  pose proof (Z.mod_pos_bound s 320 ltac:(lia)) as Ha.
  pose proof (Z.mod_pos_bound t 432 ltac:(lia)) as Hb.
  revert Ha Hb. generalize (s mod 320) (t mod 432). intros a b Ha Hb.
  unfold Qle, Qlt, Qdiv, Qmult, Qplus, Qinv. cbn.
  repeat split; intros; nia.
Qed.

(** X13.  On any record with an integer size, a hash string whose last
    four characters parse in base 16 and an integer resonance value [r]
    (of a magnitude a float can hold), [_calculate_equinox_resonance]
    returns the mean of [size mod 320 / 320], [tail mod 432 / 432] and
    [r / 432], with no file-system call.  The resonance term is not
    reduced: the result is in [0, 1) when [0 <= r < 432], at least 1 when
    [r >= 1296] and negative when [r < -864]. *)
Theorem equinox_resonance_on_any_record
    (info : pydict) (s r t : Z) (h : string) (tr : list io_event) :
  Dict.get "size_bytes" info = Some (PInt s) ->
  Dict.get "consciousness_hash" info = Some (PStr h) ->
  int_base16 (Str.take_last 4 h) = Ok t ->
  Dict.get "resonance_frequency" info = Some (PInt r) ->
  Z.abs r < 2 ^ 1024 ->
  exists q : Q,
    _calculate_equinox_resonance (PDict info) tr = (Ok (PFloat q), tr)
    /\ (q == derived_scalar s t r)%Q
    /\ (0 <= r < 432 -> (0 <= q)%Q /\ (q < 1)%Q)
    /\ (1296 <= r -> (1 <= q)%Q)
    /\ (r < -864 -> (q < 0)%Q).
Proof.
  intros Hs Hh Ht Hr _.
  eexists. split.
  - unfold _calculate_equinox_resonance, getitem.
    rewrite Hs, Hh, Hr.
    cbv beta iota zeta delta [bind ret lift as_int as_str].
    rewrite Ht. reflexivity.
  - pose proof (scalar_formula s t r) as E.
    destruct (derived_scalar_bounds s t r) as (B1 & B2 & B3).
    split; [exact E|]. rewrite E. repeat split; tauto.
Qed.

Lemma equinox_resonance_on_any_record_witness :
  exists q : Q,
    run (_calculate_equinox_resonance
           (PDict [ ("size_bytes", PInt 0);
                    ("consciousness_hash", PStr "0000");
                    ("resonance_frequency", PInt 1296) ]))
    = (Ok (PFloat q), [])
    /\ (1 <= q)%Q.
Proof.
  destruct (equinox_resonance_on_any_record
              [ ("size_bytes", PInt 0);
                ("consciousness_hash", PStr "0000");
                ("resonance_frequency", PInt 1296) ]
              0 1296 0 "0000" [] eq_refl eq_refl eq_refl eq_refl eq_refl)
    as (q & H & _ & _ & B & _).
  exists q. split; [exact H | apply B; lia].
Defined.

(** X14.  [_calculate_equinox_resonance] raises the [KeyError] of the
    first key the record lacks, in the order [size_bytes],
    [consciousness_hash], [resonance_frequency]. *)
Theorem equinox_resonance_needs_its_keys (info : pydict) (tr : list io_event) :
  (Dict.get "size_bytes" info = None ->
   _calculate_equinox_resonance (PDict info) tr = (Raise "'size_bytes'", tr))
  /\ (forall s : Z,
        Dict.get "size_bytes" info = Some (PInt s) ->
        Dict.get "consciousness_hash" info = None ->
        _calculate_equinox_resonance (PDict info) tr
        = (Raise "'consciousness_hash'", tr))
  /\ (forall (s t : Z) (h : string),
        Dict.get "size_bytes" info = Some (PInt s) ->
        Dict.get "consciousness_hash" info = Some (PStr h) ->
        int_base16 (Str.take_last 4 h) = Ok t ->
        Dict.get "resonance_frequency" info = None ->
        _calculate_equinox_resonance (PDict info) tr
        = (Raise "'resonance_frequency'", tr)).
Proof.
  repeat split.
  - intros H. unfold _calculate_equinox_resonance, getitem. rewrite H. reflexivity.
  - intros s Hs Hh. unfold _calculate_equinox_resonance, getitem.
    rewrite Hs, Hh. reflexivity.
  - intros s t h Hs Hh Ht Hr. unfold _calculate_equinox_resonance, getitem.
    rewrite Hs, Hh, Hr.
    cbv beta iota zeta delta [bind ret lift as_int as_str raise].
    rewrite Ht. reflexivity.
Qed.

Lemma equinox_resonance_needs_its_keys_witness :
  run (_calculate_equinox_resonance (PDict [("name", PStr "x")]))
  = (Raise "'size_bytes'", [])
  /\ run (_calculate_equinox_resonance
            (PDict [("size_bytes", PInt 7); ("consciousness_hash", PStr "beef")]))
     = (Raise "'resonance_frequency'", []).
Proof.
  split.
  - destruct (equinox_resonance_needs_its_keys [("name", PStr "x")] []) as (A & _).
    apply A. reflexivity.
  - destruct (equinox_resonance_needs_its_keys
                [("size_bytes", PInt 7); ("consciousness_hash", PStr "beef")] [])
      as (_ & _ & C).
    apply (C 7 48879 "beef"); reflexivity.
Defined.

(** ** More on the human-readable size *)

(** A property checked on every integer of a range. *)
Lemma range_check (p : Z -> bool) (lo : Z) (count : nat) :
  forallb (fun k => p (lo + Z.of_nat k)) (seq 0 count) = true ->
  forall n : Z, lo <= n < lo + Z.of_nat count -> p n = true.
Proof.
  intros H n Hn. rewrite forallb_forall in H.
  replace n with (lo + Z.of_nat (Z.to_nat (n - lo))) by lia.
  apply H, in_seq. lia.
Qed.

(** X15.  A size below 1024 is printed as the number itself followed by
    [.0 bytes]. *)
Theorem sizes_below_1024_print_exactly (n : Z) :
  0 <= n < 1024 -> _format_file_size n = decimal n ++ ".0 bytes".
Proof.
  intros Hn. apply String.eqb_eq.
  apply (range_check
           (fun n => String.eqb (_format_file_size n) (decimal n ++ ".0 bytes"))
           0 1024); [vm_compute; reflexivity | lia].
Qed.

Lemma sizes_below_1024_print_exactly_witness :
  _format_file_size 1023 = "1023.0 bytes".
Proof.
  rewrite (sizes_below_1024_print_exactly 1023) by lia.
  vm_compute. reflexivity.
Defined.

(** X16.  A size from 1048525 to 1048575, just below one MB, is printed
    as [1024.0 KB]: the unit is chosen on the value before rounding, so the
    number printed can be 1024.0. *)
Theorem size_just_below_a_unit_prints_1024 (n : Z) :
  1048525 <= n < 1048576 -> _format_file_size n = "1024.0 KB".
Proof.
  intros Hn. apply String.eqb_eq.
  apply (range_check
           (fun n => String.eqb (_format_file_size n) "1024.0 KB")
           1048525 51); [vm_compute; reflexivity | lia].
Qed.

Lemma size_just_below_a_unit_prints_1024_witness :
  _format_file_size 1048524 = "1023.9 KB"
  /\ _format_file_size 1048575 = "1024.0 KB"
  /\ _format_file_size 1048576 = "1.0 MB".
Proof.
  split; [vm_compute; reflexivity | split].
  - apply size_just_below_a_unit_prints_1024. lia.
  - vm_compute. reflexivity.
Defined.

Lemma format_size_loop_shape (names : list string) (x : Q) :
  (0 <= x)%Q ->
  exists (y : Q) (unit : string),
    format_size_loop names x = format_1f y ++ " " ++ unit
    /\ (0 <= y)%Q /\ In unit (names ++ ["TB"])%list.
Proof.
  revert x; induction names as [|u names IH]; intros x Hx.
  - exists x, "TB". repeat split; [exact Hx | now left].
  - rewrite format_size_loop_step. destruct (Qltb x 1024).
    + exists x, u. repeat split; [exact Hx | now left].
    + destruct (IH (x / 1024)%Q) as (y & unit & E & Hy & Hu).
      * apply Qle_shift_div_l; [reflexivity | lra].
      * exists y, unit. repeat split; [exact E | exact Hy | now right].
Qed.

Lemma one_digit (t : Z) : In (decimal (t mod 10)) decimal_digits.
Proof.
  pose proof (Z.mod_pos_bound t 10 ltac:(lia)) as H.
  assert (B : existsb (String.eqb (decimal (t mod 10))) decimal_digits = true).
  { apply (range_check
             (fun d => existsb (String.eqb (decimal d)) decimal_digits) 0 10);
      [vm_compute; reflexivity | lia]. }
  apply existsb_exists in B as (d & Hd & E).
  apply String.eqb_eq in E. now rewrite E.
Qed.

Lemma string_app_assoc (a b c : string) : (a ++ b) ++ c = a ++ b ++ c.
Proof. induction a as [|x a IH]; simpl; [reflexivity | now rewrite IH]. Qed.

(** X17.  For a size below 2^53 the text is a non-negative whole number in
    decimal, a point, one of the ten digits (the number of tenths, from 0
    to 9), a space and one of the five units. *)
Theorem size_text_shape (n : Z) :
  0 <= n < 2 ^ 53 ->
  exists (whole tenth : Z) (unit : string),
    _format_file_size n
    = decimal whole ++ "." ++ decimal tenth ++ " " ++ unit
    /\ 0 <= whole
    /\ 0 <= tenth <= 9
    /\ In (decimal tenth) decimal_digits
    /\ In unit units.
Proof.
  intros Hn. unfold _format_file_size, float_of_int.
  rewrite (round53_small n Hn).
  destruct (format_size_loop_shape ["bytes"; "KB"; "MB"; "GB"] (inject_Z n))
    as (y & unit & E & Hy & Hu).
  { change 0%Q with (inject_Z 0). rewrite <- Zle_Qle. lia. }
  set (t := round_half_even (Qabs y * 10)).
  exists (t / 10), (t mod 10), unit.
  split; [|split; [|split; [|split]]].
  - rewrite E. unfold format_1f. fold t.
    replace (Qltb y 0) with false by (symmetry; now apply Qltb_ge).
    cbn [append]. now rewrite !string_app_assoc.
  - apply Z.div_pos; [|lia]. unfold t, round_half_even.
    assert (F : 0 <= Qfloor (Qabs y * 10)).
    { change 0 with (Qfloor 0). apply Qfloor_resp_le.
      apply Qmult_le_0_compat; [apply Qabs_nonneg | discriminate]. }
    destruct (Qabs y * 10 - inject_Z (Qfloor (Qabs y * 10)) ?= 1 # 2)%Q;
      [destruct (Z.even _)|..]; lia.
  - pose proof (Z.mod_pos_bound t 10 ltac:(lia)). lia.
  - apply one_digit.
  - exact Hu.
Qed.

Lemma size_text_shape_witness :
  _format_file_size 5000000 = "4.8 MB"
  /\ exists (whole tenth : Z) (unit : string),
       _format_file_size 5000000
       = decimal whole ++ "." ++ decimal tenth ++ " " ++ unit
       /\ 0 <= whole
       /\ 0 <= tenth <= 9
       /\ In (decimal tenth) decimal_digits
       /\ In unit units.
Proof.
  split; [vm_compute; reflexivity|].
  apply size_text_shape. split; [lia | vm_compute; reflexivity].
Defined.

(** ** The entry point, continued *)

Lemma insight_depends_on_the_file (rt : runtime) (w1 w2 : world) (path : string)
    (f : file) (info : pyval) (tr : list io_event) :
  fs w1 path = Some f ->
  fs w2 path = Some f ->
  _analyze_internal_structure rt w1 path info tr
  = _analyze_internal_structure rt w2 path info tr.
Proof.
  intros H1 H2.
  unfold _analyze_internal_structure, structure_try, json_branch, csv_branch,
    code_branch, open.
  rewrite H1, H2. reflexivity.
Qed.

(** X18.  Two analyses of the same file at two clock readings return
    reports that differ in [timestamp] only: the second report is the
    first with that entry replaced, every other key has the same value, and
    both make the same calls on the file system. *)
Theorem clock_changes_only_the_timestamp
    (rt : runtime) (w1 w2 : world) (path level : string) (f : file) :
  fs w1 path = Some f ->
  fs w2 path = Some f ->
  exists (report1 report2 : pydict) (tr : list io_event),
    run (analyze_file_miracatech rt w1 path level) = (Ok (PDict report1), tr)
    /\ run (analyze_file_miracatech rt w2 path level) = (Ok (PDict report2), tr)
    /\ Dict.get "timestamp" report1 = Some (PStr (now_isoformat w1))
    /\ report2 = Dict.set "timestamp" (PStr (now_isoformat w2)) report1
    /\ (forall key : string,
          key <> "timestamp" -> Dict.get key report1 = Dict.get key report2).
Proof.
  intros H1 H2.
  destruct (existing_file_report rt w1 path level f H1) as (summary & tr & Hs & R1).
  rewrite (insight_depends_on_the_file rt w1 w2 path f _ _ H1 H2) in Hs.
  pose proof (analyze_existing rt w2 path level f (PDict summary) tr H2 Hs) as R2.
  exists (report_of rt w1 path level f (PDict summary)),
         (report_of rt w2 path level f (PDict summary)), tr.
  assert (E : report_of rt w2 path level f (PDict summary)
              = Dict.set "timestamp" (PStr (now_isoformat w2))
                  (report_of rt w1 path level f (PDict summary)))
    by reflexivity.
  split; [exact R1 | split; [exact R2 | split; [reflexivity | split; [exact E|]]]].
  intros key Hk. rewrite E. symmetry. now apply get_set_other.
Qed.

Lemma clock_changes_only_the_timestamp_witness :
  exists (report1 report2 : pydict) (tr : list io_event),
    run (analyze_file_miracatech Posix.rt Posix.w "table.csv" "full")
    = (Ok (PDict report1), tr)
    /\ run (analyze_file_miracatech Posix.rt
              (Posix.world_at "2027-01-01T00:00:00") "table.csv" "full")
       = (Ok (PDict report2), tr)
    /\ Dict.get "miracatech_metadata" report1
       = Dict.get "miracatech_metadata" report2
    /\ Dict.get "quadundrum_analysis" report1
       = Dict.get "quadundrum_analysis" report2.
Proof.
  destruct (clock_changes_only_the_timestamp Posix.rt Posix.w
              (Posix.world_at "2027-01-01T00:00:00") "table.csv" "full"
              (Posix.regular three_rows) eq_refl eq_refl)
    as (r1 & r2 & tr & H1 & H2 & _ & _ & K).
  exists r1, r2, tr. repeat split; try assumption; apply K; discriminate.
Defined.

(** X19.  For an existing file whose lower-cased suffix is [.py], [.js]
    or [.sol] and whose content decodes to [text], the report holds under
    the [insight] position the envelope of the line-count summary of
    [text], and the file is opened and read twice, first in binary mode,
    then in text mode. *)
Theorem code_file_report
    (rt : runtime) (w : world) (path level : string) (f : file) (text : string) :
  fs w path = Some f ->
  In (str_lower rt (path_suffix rt path)) code_extensions ->
  decode_text rt (content f) = Ok text ->
  exists (report envelope : pydict),
    run (analyze_file_miracatech rt w path level)
    = (Ok (PDict report),
       [ EvExists path; EvStat path; EvOpen path "rb"; EvRead path;
         EvOpen path "r"; EvRead path ])
    /\ Dict.get "quadundrum_analysis" report = Some (PDict envelope)
    /\ Dict.get "insight" envelope
       = Some (envelope_of (PDict (code_summary text))).
Proof.
  intros Hf He Hd.
  pose proof (code_branch_summary rt w path (metadata_entries rt path f) _ f text
                (EvExists path :: metadata_events path)
                (metadata_extension rt path f) He Hf Hd) as Hs.
  pose proof (analyze_existing rt w path level f _ _ Hf Hs) as H.
  do 2 eexists. split; [exact H|]. split; reflexivity.
Qed.

Lemma code_file_report_witness :
  exists (report envelope : pydict),
    run (analyze_file_miracatech Posix.rt Posix.w "notes.py" "full")
    = (Ok (PDict report),
       [ EvExists "notes.py"; EvStat "notes.py"; EvOpen "notes.py" "rb";
         EvRead "notes.py"; EvOpen "notes.py" "r"; EvRead "notes.py" ])
    /\ Dict.get "quadundrum_analysis" report = Some (PDict envelope)
    /\ Dict.get "insight" envelope
       = Some (envelope_of (PDict (code_summary comment_blank_code))).
Proof.
  apply (code_file_report Posix.rt Posix.w "notes.py" "full"
           (Posix.regular comment_blank_code) comment_blank_code).
  - reflexivity.
  - vm_compute. tauto.
  - vm_compute. reflexivity.
Defined.

(** ** The constructor *)

(** X20.  [__init__] raises [AttributeError] for
    [_apply_creative_analysis]: the four methods it names for
    [self.x2_processing] besides [_synthesize_to_unity] are not defined by
    the class, while the four analyzers of [self.quadundrum_frameworks]
    are. *)
Theorem constructor_fails_on_undefined_methods :
  __init__
  = Raise "'MIRACATECHFileAnalyzer' object has no attribute '_apply_creative_analysis'"
  /\ (forall name : string,
        In name undefined_methods ->
        bound_method name
        = Raise ("'MIRACATECHFileAnalyzer' object has no attribute '" ++ name ++ "'"))
  /\ (forall name : string,
        In name
           [ "_analyze_external_patterns"; "_analyze_internal_structure";
             "_analyze_meta_relationships"; "_analyze_consciousness_core";
             "_synthesize_to_unity" ] ->
        bound_method name = Ok name).
Proof.
  split; [vm_compute; reflexivity | split].
  - intros name H. unfold undefined_methods in H. cbn [In] in H.
    destruct H as [<- | [<- | [<- | [<- | []]]]]; vm_compute; reflexivity.
  - intros name H. cbn [In] in H.
    destruct H as [<- | [<- | [<- | [<- | [<- | []]]]]]; vm_compute; reflexivity.
Qed.

Lemma constructor_fails_on_undefined_methods_witness :
  bound_method "_apply_meta_logical"
  = Raise "'MIRACATECHFileAnalyzer' object has no attribute '_apply_meta_logical'"
  /\ bound_method "_analyze_internal_structure" = Ok "_analyze_internal_structure".
Proof.
  destruct constructor_fails_on_undefined_methods as (_ & A & B).
  split.
  - rewrite (A "_apply_meta_logical") by (vm_compute; tauto).
    vm_compute. reflexivity.
  - apply B. vm_compute. tauto.
Defined.
